(** * homework_bot: the polling loop of [homework.py]

    A shallow embedding of [homework.py]: the JSON values the review API
    returns, the exceptions the functions raise, the outside world of one
    loop iteration (clock, HTTP answer, chat delivery) and the functions
    [send_message], [get_api_answer], [check_response], [parse_status],
    [check_tokens] and the body of the [while True] loop of [main].

    Every function runs in a small monad that collects, in order, what the
    program does to the outside (log records, the HTTP request, the call of
    [bot.send_message], the sleep) and ends either with a value or with a
    raised exception. *)

From Stdlib Require Import ZArith List String Ascii Bool Lia DecimalString.
Import ListNotations.

Local Open Scope string_scope.
Local Open Scope Z_scope.

Set Warnings "-register-all".

(** ** Python values *)

(** The values [response.json()] can produce.  A [dict] keeps its items in
    insertion order, as Python does; its keys are strings, as JSON keys
    are.  A [float] is carried by its [repr] (the shortest text that reads
    back to it), the only thing this program can observe of it besides its
    truth value. *)
Inductive pyval : Type :=
| PNone
| PBool (b : bool)
| PInt (z : Z)
| PFloat (repr : string)
| PStr (s : string)
| PList (l : list pyval)
| PDict (d : list (string * pyval)).

Definition dict (V : Type) : Type := list (string * V).

(** [d.get(k)]: the value under key [k], [None] when the key is absent. *)
Fixpoint dict_get {V : Type} (k : string) (d : dict V) : option V :=
  match d with
  | [] => None
  | (k', v) :: rest => if String.eqb k k' then Some v else dict_get k rest
  end.

(** [k in d] for a dict [d]. *)
Definition dict_mem {V : Type} (k : string) (d : dict V) : bool :=
  match dict_get k d with Some _ => true | None => false end.

(** [isinstance(v, dict)], [isinstance(v, list)], [isinstance(v, int)].
    [bool] is a subclass of [int] in Python. *)
Definition isinstance_dict (v : pyval) : bool :=
  match v with PDict _ => true | _ => false end.

Definition isinstance_list (v : pyval) : bool :=
  match v with PList _ => true | _ => false end.

Definition isinstance_int (v : pyval) : bool :=
  match v with PInt _ | PBool _ => true | _ => false end.

(** Truth value of an object, as [if v:] and [v or w] test it. *)
Definition truthy (v : pyval) : bool :=
  match v with
  | PNone => false
  | PBool b => b
  | PInt z => negb (z =? 0)
  | PFloat r => negb (String.eqb r "0.0" || String.eqb r "-0.0")
  | PStr s => negb (String.eqb s EmptyString)
  | PList l => match l with [] => false | _ => true end
  | PDict d => match d with [] => false | _ => true end
  end.

(** ** Text of values: [str] and [repr] *)

Definition dq : string := String "034"%char EmptyString.
Definition sq : string := String "039"%char EmptyString.

Definition hex_digit (n : nat) : ascii :=
  match n with
  | 0 => "0" | 1 => "1" | 2 => "2" | 3 => "3" | 4 => "4" | 5 => "5"
  | 6 => "6" | 7 => "7" | 8 => "8" | 9 => "9" | 10 => "a" | 11 => "b"
  | 12 => "c" | 13 => "d" | 14 => "e" | _ => "f"
  end%nat%char.

Fixpoint contains_char (c : ascii) (s : string) : bool :=
  match s with
  | EmptyString => false
  | String c' rest => Ascii.eqb c c' || contains_char c rest
  end.

(** The code points from 128 on that [str.isprintable] refuses (Unicode
    14.0: the categories Other and Separator), as ranges in rising
    order.  Every other code point from 128 on is printable. *)
Definition nonprintable_ranges : list (N * N) :=
  [(128, 160); (173, 173); (888, 889); (896, 899); (907, 907); (909, 909);
   (930, 930); (1328, 1328); (1367, 1368); (1419, 1420); (1424, 1424);
   (1480, 1487); (1515, 1518); (1525, 1541); (1564, 1564); (1757, 1757);
   (1806, 1807); (1867, 1868); (1970, 1983); (2043, 2044); (2094, 2095);
   (2111, 2111); (2140, 2141); (2143, 2143); (2155, 2159); (2191, 2199);
   (2274, 2274); (2436, 2436); (2445, 2446); (2449, 2450); (2473, 2473);
   (2481, 2481); (2483, 2485); (2490, 2491); (2501, 2502); (2505, 2506);
   (2511, 2518); (2520, 2523); (2526, 2526); (2532, 2533); (2559, 2560);
   (2564, 2564); (2571, 2574); (2577, 2578); (2601, 2601); (2609, 2609);
   (2612, 2612); (2615, 2615); (2618, 2619); (2621, 2621); (2627, 2630);
   (2633, 2634); (2638, 2640); (2642, 2648); (2653, 2653); (2655, 2661);
   (2679, 2688); (2692, 2692); (2702, 2702); (2706, 2706); (2729, 2729);
   (2737, 2737); (2740, 2740); (2746, 2747); (2758, 2758); (2762, 2762);
   (2766, 2767); (2769, 2783); (2788, 2789); (2802, 2808); (2816, 2816);
   (2820, 2820); (2829, 2830); (2833, 2834); (2857, 2857); (2865, 2865);
   (2868, 2868); (2874, 2875); (2885, 2886); (2889, 2890); (2894, 2900);
   (2904, 2907); (2910, 2910); (2916, 2917); (2936, 2945); (2948, 2948);
   (2955, 2957); (2961, 2961); (2966, 2968); (2971, 2971); (2973, 2973);
   (2976, 2978); (2981, 2983); (2987, 2989); (3002, 3005); (3011, 3013);
   (3017, 3017); (3022, 3023); (3025, 3030); (3032, 3045); (3067, 3071);
   (3085, 3085); (3089, 3089); (3113, 3113); (3130, 3131); (3141, 3141);
   (3145, 3145); (3150, 3156); (3159, 3159); (3163, 3164); (3166, 3167);
   (3172, 3173); (3184, 3190); (3213, 3213); (3217, 3217); (3241, 3241);
   (3252, 3252); (3258, 3259); (3269, 3269); (3273, 3273); (3278, 3284);
   (3287, 3292); (3295, 3295); (3300, 3301); (3312, 3312); (3315, 3327);
   (3341, 3341); (3345, 3345); (3397, 3397); (3401, 3401); (3408, 3411);
   (3428, 3429); (3456, 3456); (3460, 3460); (3479, 3481); (3506, 3506);
   (3516, 3516); (3518, 3519); (3527, 3529); (3531, 3534); (3541, 3541);
   (3543, 3543); (3552, 3557); (3568, 3569); (3573, 3584); (3643, 3646);
   (3676, 3712); (3715, 3715); (3717, 3717); (3723, 3723); (3748, 3748);
   (3750, 3750); (3774, 3775); (3781, 3781); (3783, 3783); (3790, 3791);
   (3802, 3803); (3808, 3839); (3912, 3912); (3949, 3952); (3992, 3992);
   (4029, 4029); (4045, 4045); (4059, 4095); (4294, 4294); (4296, 4300);
   (4302, 4303); (4681, 4681); (4686, 4687); (4695, 4695); (4697, 4697);
   (4702, 4703); (4745, 4745); (4750, 4751); (4785, 4785); (4790, 4791);
   (4799, 4799); (4801, 4801); (4806, 4807); (4823, 4823); (4881, 4881);
   (4886, 4887); (4955, 4956); (4989, 4991); (5018, 5023); (5110, 5111);
   (5118, 5119); (5760, 5760); (5789, 5791); (5881, 5887); (5910, 5918);
   (5943, 5951); (5972, 5983); (5997, 5997); (6001, 6001); (6004, 6015);
   (6110, 6111); (6122, 6127); (6138, 6143); (6158, 6158); (6170, 6175);
   (6265, 6271); (6315, 6319); (6390, 6399); (6431, 6431); (6444, 6447);
   (6460, 6463); (6465, 6467); (6510, 6511); (6517, 6527); (6572, 6575);
   (6602, 6607); (6619, 6621); (6684, 6685); (6751, 6751); (6781, 6782);
   (6794, 6799); (6810, 6815); (6830, 6831); (6863, 6911); (6989, 6991);
   (7039, 7039); (7156, 7163); (7224, 7226); (7242, 7244); (7305, 7311);
   (7355, 7356); (7368, 7375); (7419, 7423); (7958, 7959); (7966, 7967);
   (8006, 8007); (8014, 8015); (8024, 8024); (8026, 8026); (8028, 8028);
   (8030, 8030); (8062, 8063); (8117, 8117); (8133, 8133); (8148, 8149);
   (8156, 8156); (8176, 8177); (8181, 8181); (8191, 8207); (8232, 8239);
   (8287, 8303); (8306, 8307); (8335, 8335); (8349, 8351); (8385, 8399);
   (8433, 8447); (8588, 8591); (9255, 9279); (9291, 9311); (11124, 11125);
   (11158, 11158); (11508, 11512); (11558, 11558); (11560, 11564);
   (11566, 11567); (11624, 11630); (11633, 11646); (11671, 11679);
   (11687, 11687); (11695, 11695); (11703, 11703); (11711, 11711);
   (11719, 11719); (11727, 11727); (11735, 11735); (11743, 11743);
   (11870, 11903); (11930, 11930); (12020, 12031); (12246, 12271);
   (12284, 12288); (12352, 12352); (12439, 12440); (12544, 12548);
   (12592, 12592); (12687, 12687); (12772, 12783); (12831, 12831);
   (42125, 42127); (42183, 42191); (42540, 42559); (42744, 42751);
   (42955, 42959); (42962, 42962); (42964, 42964); (42970, 42993);
   (43053, 43055); (43066, 43071); (43128, 43135); (43206, 43213);
   (43226, 43231); (43348, 43358); (43389, 43391); (43470, 43470);
   (43482, 43485); (43519, 43519); (43575, 43583); (43598, 43599);
   (43610, 43611); (43715, 43738); (43767, 43776); (43783, 43784);
   (43791, 43792); (43799, 43807); (43815, 43815); (43823, 43823);
   (43884, 43887); (44014, 44015); (44026, 44031); (55204, 55215);
   (55239, 55242); (55292, 63743); (64110, 64111); (64218, 64255);
   (64263, 64274); (64280, 64284); (64311, 64311); (64317, 64317);
   (64319, 64319); (64322, 64322); (64325, 64325); (64451, 64466);
   (64912, 64913); (64968, 64974); (64976, 65007); (65050, 65055);
   (65107, 65107); (65127, 65127); (65132, 65135); (65141, 65141);
   (65277, 65280); (65471, 65473); (65480, 65481); (65488, 65489);
   (65496, 65497); (65501, 65503); (65511, 65511); (65519, 65531);
   (65534, 65535); (65548, 65548); (65575, 65575); (65595, 65595);
   (65598, 65598); (65614, 65615); (65630, 65663); (65787, 65791);
   (65795, 65798); (65844, 65846); (65935, 65935); (65949, 65951);
   (65953, 65999); (66046, 66175); (66205, 66207); (66257, 66271);
   (66300, 66303); (66340, 66348); (66379, 66383); (66427, 66431);
   (66462, 66462); (66500, 66503); (66518, 66559); (66718, 66719);
   (66730, 66735); (66772, 66775); (66812, 66815); (66856, 66863);
   (66916, 66926); (66939, 66939); (66955, 66955); (66963, 66963);
   (66966, 66966); (66978, 66978); (66994, 66994); (67002, 67002);
   (67005, 67071); (67383, 67391); (67414, 67423); (67432, 67455);
   (67462, 67462); (67505, 67505); (67515, 67583); (67590, 67591);
   (67593, 67593); (67638, 67638); (67641, 67643); (67645, 67646);
   (67670, 67670); (67743, 67750); (67760, 67807); (67827, 67827);
   (67830, 67834); (67868, 67870); (67898, 67902); (67904, 67967);
   (68024, 68027); (68048, 68049); (68100, 68100); (68103, 68107);
   (68116, 68116); (68120, 68120); (68150, 68151); (68155, 68158);
   (68169, 68175); (68185, 68191); (68256, 68287); (68327, 68330);
   (68343, 68351); (68406, 68408); (68438, 68439); (68467, 68471);
   (68498, 68504); (68509, 68520); (68528, 68607); (68681, 68735);
   (68787, 68799); (68851, 68857); (68904, 68911); (68922, 69215);
   (69247, 69247); (69290, 69290); (69294, 69295); (69298, 69375);
   (69416, 69423); (69466, 69487); (69514, 69551); (69580, 69599);
   (69623, 69631); (69710, 69713); (69750, 69758); (69821, 69821);
   (69827, 69839); (69865, 69871); (69882, 69887); (69941, 69941);
   (69960, 69967); (70007, 70015); (70112, 70112); (70133, 70143);
   (70162, 70162); (70207, 70271); (70279, 70279); (70281, 70281);
   (70286, 70286); (70302, 70302); (70314, 70319); (70379, 70383);
   (70394, 70399); (70404, 70404); (70413, 70414); (70417, 70418);
   (70441, 70441); (70449, 70449); (70452, 70452); (70458, 70458);
   (70469, 70470); (70473, 70474); (70478, 70479); (70481, 70486);
   (70488, 70492); (70500, 70501); (70509, 70511); (70517, 70655);
   (70748, 70748); (70754, 70783); (70856, 70863); (70874, 71039);
   (71094, 71095); (71134, 71167); (71237, 71247); (71258, 71263);
   (71277, 71295); (71354, 71359); (71370, 71423); (71451, 71452);
   (71468, 71471); (71495, 71679); (71740, 71839); (71923, 71934);
   (71943, 71944); (71946, 71947); (71956, 71956); (71959, 71959);
   (71990, 71990); (71993, 71994); (72007, 72015); (72026, 72095);
   (72104, 72105); (72152, 72153); (72165, 72191); (72264, 72271);
   (72355, 72367); (72441, 72703); (72713, 72713); (72759, 72759);
   (72774, 72783); (72813, 72815); (72848, 72849); (72872, 72872);
   (72887, 72959); (72967, 72967); (72970, 72970); (73015, 73017);
   (73019, 73019); (73022, 73022); (73032, 73039); (73050, 73055);
   (73062, 73062); (73065, 73065); (73103, 73103); (73106, 73106);
   (73113, 73119); (73130, 73439); (73465, 73647); (73649, 73663);
   (73714, 73726); (74650, 74751); (74863, 74863); (74869, 74879);
   (75076, 77711); (77811, 77823); (78895, 82943); (83527, 92159);
   (92729, 92735); (92767, 92767); (92778, 92781); (92863, 92863);
   (92874, 92879); (92910, 92911); (92918, 92927); (92998, 93007);
   (93018, 93018); (93026, 93026); (93048, 93052); (93072, 93759);
   (93851, 93951); (94027, 94030); (94088, 94094); (94112, 94175);
   (94181, 94191); (94194, 94207); (100344, 100351); (101590, 101631);
   (101641, 110575); (110580, 110580); (110588, 110588); (110591, 110591);
   (110883, 110927); (110931, 110947); (110952, 110959); (111356, 113663);
   (113771, 113775); (113789, 113791); (113801, 113807); (113818, 113819);
   (113824, 118527); (118574, 118575); (118599, 118607); (118724, 118783);
   (119030, 119039); (119079, 119080); (119155, 119162); (119275, 119295);
   (119366, 119519); (119540, 119551); (119639, 119647); (119673, 119807);
   (119893, 119893); (119965, 119965); (119968, 119969); (119971, 119972);
   (119975, 119976); (119981, 119981); (119994, 119994); (119996, 119996);
   (120004, 120004); (120070, 120070); (120075, 120076); (120085, 120085);
   (120093, 120093); (120122, 120122); (120127, 120127); (120133, 120133);
   (120135, 120137); (120145, 120145); (120486, 120487); (120780, 120781);
   (121484, 121498); (121504, 121504); (121520, 122623); (122655, 122879);
   (122887, 122887); (122905, 122906); (122914, 122914); (122917, 122917);
   (122923, 123135); (123181, 123183); (123198, 123199); (123210, 123213);
   (123216, 123535); (123567, 123583); (123642, 123646); (123648, 124895);
   (124903, 124903); (124908, 124908); (124911, 124911); (124927, 124927);
   (125125, 125126); (125143, 125183); (125260, 125263); (125274, 125277);
   (125280, 126064); (126133, 126208); (126270, 126463); (126468, 126468);
   (126496, 126496); (126499, 126499); (126501, 126502); (126504, 126504);
   (126515, 126515); (126520, 126520); (126522, 126522); (126524, 126529);
   (126531, 126534); (126536, 126536); (126538, 126538); (126540, 126540);
   (126544, 126544); (126547, 126547); (126549, 126550); (126552, 126552);
   (126554, 126554); (126556, 126556); (126558, 126558); (126560, 126560);
   (126563, 126563); (126565, 126566); (126571, 126571); (126579, 126579);
   (126584, 126584); (126589, 126589); (126591, 126591); (126602, 126602);
   (126620, 126624); (126628, 126628); (126634, 126634); (126652, 126703);
   (126706, 126975); (127020, 127023); (127124, 127135); (127151, 127152);
   (127168, 127168); (127184, 127184); (127222, 127231); (127406, 127461);
   (127491, 127503); (127548, 127551); (127561, 127567); (127570, 127583);
   (127590, 127743); (128728, 128732); (128749, 128751); (128765, 128767);
   (128884, 128895); (128985, 128991); (129004, 129007); (129009, 129023);
   (129036, 129039); (129096, 129103); (129114, 129119); (129160, 129167);
   (129198, 129199); (129202, 129279); (129620, 129631); (129646, 129647);
   (129653, 129655); (129661, 129663); (129671, 129679); (129709, 129711);
   (129723, 129727); (129734, 129743); (129754, 129759); (129768, 129775);
   (129783, 129791); (129939, 129939); (129995, 130031); (130042, 131071);
   (173792, 173823); (177977, 177983); (178206, 178207); (183970, 183983);
   (191457, 194559); (195102, 196607); (201547, 917759); (918000, 1114111)]%N.

Fixpoint in_ranges (cp : N) (ranges : list (N * N)) : bool :=
  match ranges with
  | [] => false
  | (lo, hi) :: rest =>
      if (cp <? lo)%N then false
      else if (cp <=? hi)%N then true
      else in_ranges cp rest
  end.

Definition isprintable (cp : N) : bool := negb (in_ranges cp nonprintable_ranges).

(** [n] in [width] hexadecimal digits. *)
Fixpoint hex_fixed (width : nat) (n : N) : string :=
  match width with
  | O => EmptyString
  | S w =>
      hex_fixed w (n / 16)%N
      ++ String (hex_digit (N.to_nat (n mod 16)%N)) EmptyString
  end.

Definition backslash : string := String "092"%char EmptyString.

(** The escape [repr] writes for a code point that is not printable. *)
Definition escape_code_point (cp : N) : string :=
  if (cp <? 256)%N then backslash ++ "x" ++ hex_fixed 2 cp
  else if (cp <? 65536)%N then backslash ++ "u" ++ hex_fixed 4 cp
  else backslash ++ "U" ++ hex_fixed 8 cp.

(** A code point from 128 on in [repr]: its own bytes when printable. *)
Definition repr_code_point (cp : N) (bytes : string) : string :=
  if isprintable cp then bytes else escape_code_point cp.

Definition continuation (c : ascii) : bool :=
  ((128 <=? N_of_ascii c) && (N_of_ascii c <? 192))%N.

Definition low_bits (c : ascii) : N := (N_of_ascii c mod 64)%N.

(** The body of [repr(s)] between the quotes.  A string is held as its
    UTF-8 bytes (a lone surrogate as its three bytes) and read code point
    by code point.  The quote in use and the backslash get a backslash;
    tab, newline and carriage return their letter; the other ASCII control
    characters [\xNN]; a code point from 128 on is kept when printable and
    escaped otherwise.  A byte that starts no well-formed sequence stands
    for no Python string; it is written as [\xNN]. *)
Fixpoint repr_body (quote : ascii) (s : string) : string :=
  match s with
  | EmptyString => EmptyString
  | String c rest =>
      let n := nat_of_ascii c in
      let b := N_of_ascii c in
      let stray (_ : unit) := escape_code_point b ++ repr_body quote rest in
      if Nat.ltb n 128 then
        let tail := repr_body quote rest in
        if Ascii.eqb c quote || Ascii.eqb c "092"%char then
          String "092"%char (String c tail)
        else if Nat.eqb n 9 then String "092"%char (String "t"%char tail)
        else if Nat.eqb n 10 then String "092"%char (String "n"%char tail)
        else if Nat.eqb n 13 then String "092"%char (String "r"%char tail)
        else if Nat.ltb n 32 || Nat.eqb n 127 then
          String "092"%char (String "x"%char
            (String (hex_digit (Nat.div n 16))
               (String (hex_digit (Nat.modulo n 16)) tail)))
        else String c tail
      else
        match rest with
        | String c1 rest1 =>
            if ((192 <=? b) && (b <? 224))%N && continuation c1 then
              let cp := ((b mod 32) * 64 + low_bits c1)%N in
              if (128 <=? cp)%N then
                repr_code_point cp (String c (String c1 EmptyString))
                ++ repr_body quote rest1
              else stray tt
            else
              match rest1 with
              | String c2 rest2 =>
                  if ((224 <=? b) && (b <? 240))%N
                     && continuation c1 && continuation c2 then
                    let cp := ((b mod 16) * 4096 + low_bits c1 * 64
                               + low_bits c2)%N in
                    if (2048 <=? cp)%N then
                      repr_code_point cp
                        (String c (String c1 (String c2 EmptyString)))
                      ++ repr_body quote rest2
                    else stray tt
                  else
                    match rest2 with
                    | String c3 rest3 =>
                        if ((240 <=? b) && (b <? 248))%N && continuation c1
                           && continuation c2 && continuation c3 then
                          let cp := ((b mod 8) * 262144 + low_bits c1 * 4096
                                     + low_bits c2 * 64 + low_bits c3)%N in
                          if ((65536 <=? cp) && (cp <=? 1114111))%N then
                            repr_code_point cp
                              (String c (String c1
                                 (String c2 (String c3 EmptyString))))
                            ++ repr_body quote rest3
                          else stray tt
                        else stray tt
                    | EmptyString => stray tt
                    end
              | EmptyString => stray tt
              end
        | EmptyString => stray tt
        end
  end.

(** [repr(s)] of a string: double quotes when [s] has a single quote and
    no double quote, single quotes otherwise. *)
Definition repr_str (s : string) : string :=
  let quote :=
    if contains_char "039"%char s && negb (contains_char "034"%char s)
    then "034"%char else "039"%char in
  String quote (repr_body quote s ++ String quote EmptyString).

(** [str(z)] of an integer. *)
Definition str_int (z : Z) : string := NilZero.string_of_int (Z.to_int z).

(** [repr(v)]. *)
Fixpoint py_repr (v : pyval) : string :=
  match v with
  | PNone => "None"
  | PBool true => "True"
  | PBool false => "False"
  | PInt z => str_int z
  | PFloat r => r
  | PStr s => repr_str s
  | PList l =>
      "[" ++
      (fix items (l : list pyval) : string :=
         match l with
         | [] => EmptyString
         | x :: rest =>
             match rest with
             | [] => py_repr x
             | _ :: _ => py_repr x ++ ", " ++ items rest
             end
         end) l ++ "]"
  | PDict d =>
      "{" ++
      (fix items (d : list (string * pyval)) : string :=
         match d with
         | [] => EmptyString
         | (k, x) :: rest =>
             match rest with
             | [] => repr_str k ++ ": " ++ py_repr x
             | _ :: _ => repr_str k ++ ": " ++ py_repr x ++ ", " ++ items rest
             end
         end) d ++ "}"
  end.

(** [str(v)], which is what an f-string field [{v}] inserts. *)
Definition py_str (v : pyval) : string :=
  match v with
  | PStr s => s
  | _ => py_repr v
  end.

(** ** Exceptions *)

(** The classes the program raises.  [PyException] is the plain
    [Exception]; [ExternalError] stands for whatever [requests.get],
    [response.json] or [bot.send_message] raise, known only by its text. *)
Inductive exc_class : Type :=
| PyException
| TypeError
| KeyError
| ConnectionError
| MissedTokenError
| AttributeError
| ExternalError.

Record exc : Type := mkExc { exc_cls : exc_class; exc_arg : string }.

(** Modelled from the spec: the module [exceptions], which declares
    [MissedTokenError] and [ConnectionError], is not part of the sources.
    The spec has the failure of a response that is not OK recovered by the
    loop, whose only handler is [except Exception]: both classes are taken
    as plain subclasses of [Exception], so [str(error)] is their argument.
    [str] of a [KeyError] is the [repr] of its argument. *)
Definition exc_str (e : exc) : string :=
  match exc_cls e with
  | KeyError => repr_str (exc_arg e)
  | _ => exc_arg e
  end.

(** ** The outside world and what the program does to it *)

(** Configuration: what [os.getenv] returned for the three variables. *)
Record environ : Type := mkEnviron {
  PRACTICUM_TOKEN : option string;
  TELEGRAM_TOKEN : option string;
  TELEGRAM_CHAT_ID : option string
}.

(** What [response.json()] does, and what [requests.get] does. *)
Inductive json_outcome : Type :=
| JsonRaises (text : string)
| JsonReturns (v : pyval).

Inductive get_outcome : Type :=
| GetRaises (text : string)
| GetReturns (status_code : Z) (body : json_outcome).

(** The world during one iteration of the loop: [int(time.time())], the
    answer to the HTTP request, and whether [bot.send_message] raises
    ([Some text]) or delivers ([None]). *)
Record world : Type := mkWorld {
  w_time : Z;
  w_get : get_outcome;
  w_bot : option string
}.

Inductive level : Type := DEBUG | INFO | ERROR | CRITICAL.

Inductive event : Type :=
| Log (lvl : level) (text : string)
| Request (url : string) (headers : dict string) (params : dict pyval)
| BotSend (chat_id : option string) (text : string)
| Sleep (seconds : Z).

(** ** The monad: a trace of events, then a value or a raised exception *)

Inductive result (A : Type) : Type :=
| Ok (a : A)
| Raise (e : exc).

Arguments Ok {A} a.
Arguments Raise {A} e.

Definition M (A : Type) : Type := (list event * result A)%type.

Definition ret {A : Type} (a : A) : M A := ([], Ok a).

Definition raise {A : Type} (cls : exc_class) (arg : string) : M A :=
  ([], Raise (mkExc cls arg)).

Definition emit (ev : event) : M unit := ([ev], Ok tt).

Definition bind {A B : Type} (c : M A) (k : A -> M B) : M B :=
  match c with
  | (t, Ok a) => let (t', r) := k a in ((t ++ t')%list, r)
  | (t, Raise e) => (t, Raise e)
  end.

(** [try: c / except Exception as error: handler error]. *)
Definition try_except {A : Type} (c : M A) (handler : exc -> M A) : M A :=
  match c with
  | (t, Ok a) => (t, Ok a)
  | (t, Raise e) => let (t', r) := handler e in ((t ++ t')%list, r)
  end.

Definition trace {A : Type} (c : M A) : list event := fst c.
Definition outcome {A : Type} (c : M A) : result A := snd c.

Declare Scope py_scope.
Delimit Scope py_scope with py.
Notation "x <- c ;; k" := (bind c (fun x => k))
  (at level 61, c at next level, right associativity) : py_scope.
Notation "c ;; k" := (bind c (fun _ => k))
  (at level 61, right associativity) : py_scope.
Local Open Scope py_scope.

Definition logger_debug (text : string) : M unit := emit (Log DEBUG text).
Definition logger_info (text : string) : M unit := emit (Log INFO text).
Definition logger_error (text : string) : M unit := emit (Log ERROR text).
Definition logger_critical (text : string) : M unit := emit (Log CRITICAL text).

(** [try: c / except Exception as error: handler error / else: els /
    finally: fin].  The [else] part runs when [c] raised nothing and is
    not covered by the handler; [fin] runs on every path, and what it
    raises replaces the outcome. *)
Definition try_except_else_finally {A B : Type}
    (c : M A) (handler : exc -> M B) (els : A -> M B) (fin : M unit) : M B :=
  let (t, r) :=
    match c with
    | (t, Ok a) => let (t', r) := els a in ((t ++ t')%list, r)
    | (t, Raise e) => let (t', r) := handler e in ((t ++ t')%list, r)
    end in
  match fin with
  | (tf, Ok _) => ((t ++ tf)%list, r)
  | (tf, Raise e) => ((t ++ tf)%list, Raise e)
  end.

(** ** Constants of the module *)

Definition RETRY_PERIOD : Z := 600.

Definition ENDPOINT : string :=
  "https://practicum.yandex.ru/api/user_api/homework_statuses/".

(** [f'{v}'] for what [os.getenv] returned. *)
Definition str_getenv (v : option string) : string :=
  match v with Some s => s | None => "None" end.

Definition HEADERS (cfg : environ) : dict string :=
  [("Authorization", "OAuth " ++ str_getenv (PRACTICUM_TOKEN cfg))].

Definition HOMEWORK_VERDICTS : dict string :=
  [("approved", "Работа проверена: ревьюеру всё понравилось. Ура!");
   ("reviewing", "Работа взята на проверку ревьюером.");
   ("rejected", "Работа проверена: у ревьюера есть замечания.")].

Definition HTTPStatus_OK : Z := 200.

(** ** Library calls *)

Definition type_name (v : pyval) : string :=
  match v with
  | PNone => "NoneType"
  | PBool _ => "bool"
  | PInt _ => "int"
  | PFloat _ => "float"
  | PStr _ => "str"
  | PList _ => "list"
  | PDict _ => "dict"
  end.

Record response_t : Type := mkResponse {
  status_code : Z;
  body : json_outcome
}.

(** [requests.get(url, headers=headers, params=params)]. *)
Definition requests_get (w : world) (url : string) (headers : dict string)
    (params : dict pyval) : M response_t :=
  emit (Request url headers params) ;;
  match w_get w with
  | GetRaises text => raise ExternalError text
  | GetReturns code b => ret (mkResponse code b)
  end.

(** [response.json()]. *)
Definition response_json (response : response_t) : M pyval :=
  match body response with
  | JsonRaises text => raise ExternalError text
  | JsonReturns v => ret v
  end.

(** [bot.send_message(chat_id=chat_id, text=text)]. *)
Definition bot_send_message (w : world) (chat_id : option string)
    (text : string) : M unit :=
  emit (BotSend chat_id text) ;;
  match w_bot w with
  | Some failure => raise ExternalError failure
  | None => ret tt
  end.

(** [time.sleep(seconds)]. *)
Definition time_sleep (seconds : Z) : M unit := emit (Sleep seconds).

(** [v in HOMEWORK_VERDICTS] and [HOMEWORK_VERDICTS[v]] hash [v] first: a
    list or a dict is unhashable.  The keys are strings, and only a string
    is equal to a string. *)
Definition hashable (v : pyval) : bool :=
  match v with PList _ | PDict _ => false | _ => true end.

Definition verdict_of (v : pyval) : option string :=
  match v with
  | PStr s => dict_get s HOMEWORK_VERDICTS
  | _ => None
  end.

(** [v.get(k)] on the object [v]. *)
Definition py_get (k : string) (v : pyval) : M pyval :=
  match v with
  | PDict d =>
      ret (match dict_get k d with Some x => x | None => PNone end)
  | _ =>
      raise AttributeError
        (sq ++ type_name v ++ sq ++ " object has no attribute 'get'")
  end.

(** ** The functions of [homework.py] *)

(** [send_message(bot, message)]: what the delivery raises is logged and
    dropped. *)
Definition send_message (cfg : environ) (w : world) (message : string)
    : M unit :=
  logger_debug "Отправляю сообщение в телеграм" ;;
  try_except
    (bot_send_message w (TELEGRAM_CHAT_ID cfg) message)
    (fun error =>
       logger_error ("Ошибка при отправке сообщения: " ++ exc_str error)).

(** [get_api_answer(current_timestamp)]. *)
Definition get_api_answer (cfg : environ) (w : world)
    (current_timestamp : pyval) : M pyval :=
  logger_debug "Отправляю запрос к эндпоинту" ;;
  let timestamp :=
    if truthy current_timestamp then current_timestamp
    else PInt (w_time w) in
  let params := [("from_date", timestamp)] in
  try_except
    (logger_debug ("Отправлен запрос на " ++ ENDPOINT) ;;
     response <- requests_get w ENDPOINT (HEADERS cfg) params ;;
     if negb (status_code response =? HTTPStatus_OK) then
       raise ConnectionError
         ("Ответ не получен,код ошибки: " ++ str_int (status_code response))
     else
       logger_debug "Ответ от API успешно получен" ;;
       try_except
         (response_json response)
         (fun error =>
            raise PyException
              ("Формат полученного ответа - не JSON: " ++ exc_str error)))
    (fun error =>
       raise PyException
         ("Ошибка при попытке подключения к эндпоинту: " ++ exc_str error)).

(** [check_response(response)]. *)
Definition check_response (response : pyval) : M (list pyval) :=
  logger_debug "Проверяю, все ли ок с ответом API" ;;
  match response with
  | PDict d =>
      match dict_get "homeworks" d with
      | None =>
          raise KeyError ("В ответе API нет ключа " ++ dq ++ "homeworks" ++ dq)
      | Some (PList homeworks) =>
          match dict_get "current_date" d with
          | None =>
              raise KeyError
                ("В ответе API нет ключа " ++ dq ++ "current_date" ++ dq)
          | Some current_date =>
              if negb (isinstance_int current_date) then
                raise TypeError
                  ("Значение по ключу " ++ dq ++ "current_date" ++ dq
                   ++ " некорректно")
              else
                logger_debug "Данные о домашних работах получены" ;;
                ret homeworks
          end
      | Some _ =>
          raise TypeError
            ("Значение по ключу " ++ dq ++ "homeworks" ++ dq
             ++ " не является списком")
      end
  | _ => raise TypeError "Ответ, полученный от API, не является словарем"
  end.

(** [parse_status(homework)]. *)
Definition parse_status (homework : pyval) : M string :=
  logger_debug "Проверяю статус домашки" ;;
  match homework with
  | PDict d =>
      match dict_get "homework_name" d with
      | None =>
          raise KeyError
            ("В данных о домашке нет ключа " ++ dq ++ "homework_name" ++ dq)
      | Some homework_name =>
          match dict_get "status" d with
          | None =>
              raise KeyError
                ("В данных о домашке нет ключа " ++ dq ++ "status" ++ dq)
          | Some homework_status =>
              if negb (hashable homework_status) then
                raise TypeError
                  ("unhashable type: " ++ sq ++ type_name homework_status
                   ++ sq)
              else
                match verdict_of homework_status with
                | None =>
                    raise KeyError
                      ("Статус " ++ py_str homework_status ++ " не распознан")
                | Some verdict =>
                    logger_debug "Статус домашней работы определен!" ;;
                    ret ("Изменился статус проверки работы " ++ dq
                         ++ py_str homework_name ++ dq ++ ". " ++ verdict)
                end
          end
      end
  | _ => raise TypeError "Данные о домашке не являются словарем"
  end.

(** [check_tokens()]: [all] of the three variables, each true when set and
    not the empty string. *)
Definition token_set (v : option string) : bool :=
  match v with
  | Some s => negb (String.eqb s EmptyString)
  | None => false
  end.

Definition check_tokens (cfg : environ) : M bool :=
  logger_debug "Проверяю токены" ;;
  ret (token_set (PRACTICUM_TOKEN cfg) && token_set (TELEGRAM_TOKEN cfg)
       && token_set (TELEGRAM_CHAT_ID cfg)).

(** ** The loop of [main] *)

(** The two variables the loop of [main] carries from one iteration to the
    next. *)
Record state : Type := mkState {
  current_timestamp : pyval;
  last_error_message : option string
}.

(** [message != last_error_message], where the right side is [None] or a
    string. *)
Definition differs (message : string) (last : option string) : bool :=
  match last with
  | Some m => negb (String.eqb message m)
  | None => true
  end.

(** The [try] suite of the loop; its last statement assigns
    [current_timestamp], whose new value is what the suite returns.
    [homeworks] is a list, so [if homeworks:] asks whether it has a first
    element. *)
Definition try_suite (cfg : environ) (w : world) (st : state) : M pyval :=
  response <- get_api_answer cfg w (current_timestamp st) ;;
  homeworks <- check_response response ;;
  match homeworks with
  | homework :: _ =>
      message <- parse_status homework ;;
      send_message cfg w message ;;
      logger_info ("Сообщение " ++ message ++ " успешно отправлено")
  | [] => logger_debug "Статус работы не изменился"
  end ;;
  py_get "current_date" response.

(** The text main reports for a caught exception. *)
Definition failure_message (e : exc) : string :=
  "Сбой в работе программы: " ++ exc_str e.

(** The [except] suite of the loop. *)
Definition except_suite (cfg : environ) (w : world) (st : state) (e : exc)
    : M state :=
  let message := failure_message e in
  logger_error message ;;
  if differs message (last_error_message st) then
    send_message cfg w message ;;
    ret (mkState (current_timestamp st) (Some message))
  else ret st.

(** One iteration of [while True]. *)
Definition iteration (cfg : environ) (w : world) (st : state) : M state :=
  try_except_else_finally
    (try_suite cfg w st)
    (except_suite cfg w st)
    (fun timestamp => ret (mkState timestamp None))
    (time_sleep RETRY_PERIOD).

(** The loop, run for as many iterations as there are worlds. *)
Fixpoint loop (cfg : environ) (ws : list world) (st : state) : M state :=
  match ws with
  | [] => ret st
  | w :: rest => st' <- iteration cfg w st ;; loop cfg rest st'
  end.

(** The world at the start of [main]: whether the constructor [Bot]
    raises ([Some text]: the library refuses the token) or returns, and
    [int(time.time())]. *)
Record startup : Type := mkStartup {
  s_bot : option string;
  s_time : Z
}.

(** [Bot(token=token)]. *)
Definition Bot (s : startup) (token : option string) : M unit :=
  match s_bot s with
  | Some text => raise ExternalError text
  | None => ret tt
  end.

(** [main()].  The constructor of the bot is called outside the [try]:
    what it raises leaves [main]. *)
Definition main (cfg : environ) (s : startup) (ws : list world) : M state :=
  tokens <- check_tokens cfg ;;
  if negb tokens then
    let message := "Отсутствует один или несколько токенов." in
    logger_critical message ;;
    raise MissedTokenError message
  else
    Bot s (TELEGRAM_TOKEN cfg) ;;
    loop cfg ws (mkState (PInt (s_time s)) None).

(** The texts handed to [bot.send_message] in a trace, in order. *)
Fixpoint sent (t : list event) : list string :=
  match t with
  | [] => []
  | BotSend _ text :: rest => text :: sent rest
  | _ :: rest => sent rest
  end.

(** The HTTP requests of a trace, in order. *)
Fixpoint requests (t : list event) : list (string * dict string * dict pyval) :=
  match t with
  | [] => []
  | Request url headers params :: rest => (url, headers, params) :: requests rest
  | _ :: rest => requests rest
  end.

(** [sub] occurs in [s]. *)
Definition includes (sub s : string) : Prop :=
  exists before after, s = before ++ sub ++ after.

(** ** The validator as the specification words it *)

(** The five checks of the specification of the validator, each read on its
    own, and the order in which the specification lists them.  A check on
    the value under a key concerns a payload that has the key. *)
Module ValidatorSpec.

Inductive ShapeError : Type :=
| NotAMapping
| MissingHomeworks
| HomeworksNotAList
| MissingCurrentDate
| CurrentDateNotAnInteger.

Definition field (k : string) (payload : pyval) : option pyval :=
  match payload with
  | PDict d => dict_get k d
  | _ => None
  end.

(** An integer, as the specification means it: a boolean is not one. *)
Definition is_integer (v : pyval) : bool :=
  match v with PInt _ => true | _ => false end.

Definition fails (check : ShapeError) (payload : pyval) : bool :=
  match check with
  | NotAMapping => negb (isinstance_dict payload)
  | MissingHomeworks =>
      match field "homeworks" payload with None => true | Some _ => false end
  | HomeworksNotAList =>
      match field "homeworks" payload with
      | Some v => negb (isinstance_list v)
      | None => false
      end
  | MissingCurrentDate =>
      match field "current_date" payload with None => true | Some _ => false end
  | CurrentDateNotAnInteger =>
      match field "current_date" payload with
      | Some v => negb (is_integer v)
      | None => false
      end
  end.

Definition order : list ShapeError :=
  [NotAMapping; MissingHomeworks; HomeworksNotAList; MissingCurrentDate;
   CurrentDateNotAnInteger].

Definition first_failing (payload : pyval) : option ShapeError :=
  find (fun check => fails check payload) order.

End ValidatorSpec.

(** The same five checks as [check_response] makes them: the last one is
    [isinstance(v, int)], which a [bool] passes. *)
Definition check_fails (check : ValidatorSpec.ShapeError) (payload : pyval)
    : bool :=
  match check with
  | ValidatorSpec.CurrentDateNotAnInteger =>
      match ValidatorSpec.field "current_date" payload with
      | Some v => negb (isinstance_int v)
      | None => false
      end
  | _ => ValidatorSpec.fails check payload
  end.

Definition failing_check (payload : pyval) : option ValidatorSpec.ShapeError :=
  find (fun check => check_fails check payload) ValidatorSpec.order.

(** The exception [check_response] raises for each of the five checks. *)
Definition raised_for (check : ValidatorSpec.ShapeError) : exc :=
  match check with
  | ValidatorSpec.NotAMapping =>
      mkExc TypeError "Ответ, полученный от API, не является словарем"
  | ValidatorSpec.MissingHomeworks =>
      mkExc KeyError ("В ответе API нет ключа " ++ dq ++ "homeworks" ++ dq)
  | ValidatorSpec.HomeworksNotAList =>
      mkExc TypeError
        ("Значение по ключу " ++ dq ++ "homeworks" ++ dq
         ++ " не является списком")
  | ValidatorSpec.MissingCurrentDate =>
      mkExc KeyError ("В ответе API нет ключа " ++ dq ++ "current_date" ++ dq)
  | ValidatorSpec.CurrentDateNotAnInteger =>
      mkExc TypeError
        ("Значение по ключу " ++ dq ++ "current_date" ++ dq ++ " некорректно")
  end.

(** ** Sample configuration and worlds *)

Definition sample_cfg : environ :=
  mkEnviron (Some "practicum-token") (Some "telegram-token") (Some "42").

(** A world whose HTTP answer is 200 with body [v]; the chat delivers. *)
Definition answering (v : pyval) : world :=
  mkWorld 1700000000 (GetReturns 200 (JsonReturns v)) None.

(** A world whose HTTP answer has status [code]; the chat delivers unless
    [bot] holds the text of a failure. *)
Definition refusing (code : Z) (bot : option string) : world :=
  mkWorld 1700000000 (GetReturns code (JsonReturns PNone)) bot.

Definition homework_record (name status : string) : pyval :=
  PDict [("homework_name", PStr name); ("status", PStr status)].

Definition api_answer (homeworks : list pyval) (current_date : Z) : pyval :=
  PDict [("homeworks", PList homeworks); ("current_date", PInt current_date)].

(** The text [a b] with U+00A0, the no-break space, between the letters:
    a code point that [repr] escapes. *)
Definition a_nbsp_b : string :=
  String "a" (String "194" (String "160" (String "b" EmptyString))).

(** The exception [get_api_answer] ends with when the status is [code]. *)
Definition refused (code : Z) : exc :=
  mkExc PyException
    ("Ошибка при попытке подключения к эндпоинту: "
     ++ "Ответ не получен,код ошибки: " ++ str_int code).

(** ** Further readings of a trace *)

(** The calls of [bot.send_message] of a trace: recipient and text. *)
Fixpoint bot_calls (t : list event) : list (option string * string) :=
  match t with
  | [] => []
  | BotSend chat_id text :: rest => (chat_id, text) :: bot_calls rest
  | _ :: rest => bot_calls rest
  end.

(** The durations of the calls of [time.sleep] of a trace. *)
Fixpoint sleeps (t : list event) : list Z :=
  match t with
  | [] => []
  | Sleep seconds :: rest => seconds :: sleeps rest
  | _ :: rest => sleeps rest
  end.

(** A trace that holds nothing but records of [logger.debug]. *)
Definition is_debug_log (ev : event) : bool :=
  match ev with Log DEBUG _ => true | _ => false end.

Definition only_debug_logs (t : list event) : bool := forallb is_debug_log t.

(** A world with the clock [now], a 200 answer of body [v], and the chat
    as [bot] tells. *)
Definition answering_with (now : Z) (v : pyval) (bot : option string) : world :=
  mkWorld now (GetReturns 200 (JsonReturns v)) bot.

(** * Properties *)

(** ** The monad *)

Lemma bind_Ok_inv {A B : Type} (c : M A) (k : A -> M B) t b :
  bind c k = (t, Ok b) ->
  exists t1 a t2, c = (t1, Ok a) /\ k a = (t2, Ok b) /\ t = (t1 ++ t2)%list.
Proof.
  unfold bind. destruct c as [t1 [a | e]]; [ | discriminate ].
  destruct (k a) as [t2 r] eqn:Hk. intros H. inversion H; subst.
  exists t1, a, t2. auto.
Qed.

Lemma bind_Raise_inv {A B : Type} (c : M A) (k : A -> M B) t e :
  bind c k = (t, Raise e) ->
  c = (t, Raise e) \/
  exists t1 a t2, c = (t1, Ok a) /\ k a = (t2, Raise e) /\ t = (t1 ++ t2)%list.
Proof.
  unfold bind. destruct c as [t1 [a | e1]].
  - destruct (k a) as [t2 r] eqn:Hk. intros H. inversion H; subst.
    right. exists t1, a, t2. auto.
  - intros H. inversion H; subst. now left.
Qed.

Lemma bind_Ok_run {A B : Type} (c : M A) (k : A -> M B) t a :
  c = (t, Ok a) -> bind c k = ((t ++ fst (k a))%list, snd (k a)).
Proof. intros ->. unfold bind. now destruct (k a). Qed.

Lemma bind_Raise_run {A B : Type} (c : M A) (k : A -> M B) t e :
  c = (t, Raise e) -> bind c k = (t, Raise e).
Proof. now intros ->. Qed.

Lemma sent_app (t1 t2 : list event) : sent (t1 ++ t2) = (sent t1 ++ sent t2)%list.
Proof.
  induction t1 as [ | ev t1 IH]; [ reflexivity | ].
  destruct ev; simpl; now rewrite ?IH.
Qed.

Lemma differs_true_iff (message : string) (last : option string) :
  differs message last = true <-> last <> Some message.
Proof.
  destruct last as [m | ]; simpl.
  - rewrite negb_true_iff. split.
    + intros H E. inversion E; subst. now rewrite String.eqb_refl in H.
    + intros H. apply String.eqb_neq. congruence.
  - split; [ discriminate | reflexivity ].
Qed.

Lemma differs_false_iff (message : string) (last : option string) :
  differs message last = false <-> last = Some message.
Proof.
  destruct last as [m | ]; simpl.
  - rewrite negb_false_iff, String.eqb_eq. split; congruence.
  - split; discriminate.
Qed.

(** ** Texts *)

Lemma append_empty_r (s : string) : s ++ EmptyString = s.
Proof. induction s as [ | c s IH]; simpl; congruence. Qed.

Lemma append_assoc (s1 s2 s3 : string) : (s1 ++ s2) ++ s3 = s1 ++ s2 ++ s3.
Proof. induction s1 as [ | c s1 IH]; simpl; congruence. Qed.

Example py_repr_nested :
  py_repr (PDict [("a", PList [PInt 1; PStr "it's"; PNone]); ("b", PInt (-5))])
  = "{'a': [1, " ++ dq ++ "it's" ++ dq ++ ", None], 'b': -5}".
Proof. reflexivity. Qed.

Example repr_escapes_nbsp :
  py_str (PList [PStr a_nbsp_b]) = "['a" ++ backslash ++ "xa0b']".
Proof. reflexivity. Qed.

Example failure_message_escapes_nbsp :
  failure_message
    (mkExc KeyError ("Статус " ++ py_str (PStr a_nbsp_b) ++ " не распознан"))
  = "Сбой в работе программы: 'Статус a" ++ backslash
    ++ "xa0b не распознан'".
Proof. reflexivity. Qed.

Example failure_message_of_key_error :
  failure_message (mkExc KeyError "Статус foo не распознан")
  = "Сбой в работе программы: 'Статус foo не распознан'".
Proof. reflexivity. Qed.

(** ** What each function does to the chat *)

Section Functions.

Variable cfg : environ.
Variable w : world.

(** [send_message] never raises and hands its text to the bot once. *)
Lemma send_message_run (message : string) :
  exists t, send_message cfg w message = (t, Ok tt) /\ sent t = [message].
Proof.
  unfold send_message, bot_send_message.
  destruct (w_bot w) as [failure | ]; simpl; eauto.
Qed.

(** When the delivery raises, [send_message] logs it. *)
Lemma send_message_logs_failure (message failure : string) :
  w_bot w = Some failure ->
  In (Log ERROR ("Ошибка при отправке сообщения: " ++ failure))
     (trace (send_message cfg w message)).
Proof.
  intros H. unfold send_message, bot_send_message. rewrite H. simpl. auto.
Qed.

(** [get_api_answer] returns only the parsed body of a 200 answer; any
    other course ends in a plain [Exception]; it sends nothing. *)
Lemma get_api_answer_cases (timestamp : pyval) :
  (exists t v, get_api_answer cfg w timestamp = (t, Ok v) /\
               w_get w = GetReturns 200 (JsonReturns v) /\ sent t = []) \/
  (exists t e, get_api_answer cfg w timestamp = (t, Raise e) /\
               exc_cls e = PyException /\ sent t = []).
Proof.
  unfold get_api_answer, requests_get, response_json.
  destruct (w_get w) as [text | code [text | v]]; simpl.
  - right. eauto.
  - destruct (code =? HTTPStatus_OK); simpl; right; eauto.
  - destruct (code =? HTTPStatus_OK) eqn:E; simpl.
    + apply Z.eqb_eq in E. subst code. left. eauto.
    + right. eauto.
Qed.

Lemma check_response_sent (response : pyval) :
  sent (trace (check_response response)) = [].
Proof.
  unfold check_response.
  destruct response as [ | | | | | | d]; try reflexivity. simpl.
  destruct (dict_get "homeworks" d) as [[ | | | | | l | ] | ]; try reflexivity.
  destruct (dict_get "current_date" d) as [cd | ]; try reflexivity.
  destruct (isinstance_int cd); reflexivity.
Qed.

Lemma check_response_Ok_inv (response : pyval) t homeworks :
  check_response response = (t, Ok homeworks) ->
  exists d cd,
    response = PDict d /\
    dict_get "homeworks" d = Some (PList homeworks) /\
    dict_get "current_date" d = Some cd /\
    isinstance_int cd = true.
Proof.
  unfold check_response.
  destruct response as [ | | | | | | d]; try discriminate. simpl.
  destruct (dict_get "homeworks" d) as [[ | | | | | l | ] | ] eqn:Hh;
    try discriminate.
  destruct (dict_get "current_date" d) as [cd | ] eqn:Hc; try discriminate.
  destruct (isinstance_int cd) eqn:E; simpl; try discriminate.
  intros H. inversion H; subst. exists d, cd. auto.
Qed.

Lemma parse_status_sent (homework : pyval) :
  sent (trace (parse_status homework)) = [].
Proof.
  unfold parse_status.
  destruct homework as [ | | | | | | d]; try reflexivity. simpl.
  destruct (dict_get "homework_name" d) as [name | ]; try reflexivity.
  destruct (dict_get "status" d) as [status | ]; try reflexivity.
  destruct (hashable status); try reflexivity. simpl.
  destruct (verdict_of status); reflexivity.
Qed.

End Functions.

(** ** The [try] suite *)

Section Loop.

Variable cfg : environ.

(** The [try] suite either returns the [current_date] of a validated 200
    answer, or raises before anything was sent. *)
Lemma try_suite_cases (w : world) (st : state) :
  (exists t d cd,
      try_suite cfg w st = (t, Ok cd) /\
      w_get w = GetReturns 200 (JsonReturns (PDict d)) /\
      dict_get "current_date" d = Some cd /\
      isinstance_int cd = true) \/
  (exists t e, try_suite cfg w st = (t, Raise e) /\ sent t = []).
Proof.
  unfold try_suite. cbv [bind].
  destruct (get_api_answer_cases cfg w (current_timestamp st))
    as [(t & v & Hg & Hw & Hs) | (t & e & Hg & _ & Hs)]; rewrite Hg.
  2: { right. eauto. }
  pose proof (check_response_sent v) as Hcs.
  destruct (check_response v) as [t2 [homeworks | e]] eqn:Hc; simpl in Hcs.
  2: { right. eexists _, e. split; [ reflexivity | ].
       now rewrite sent_app, Hs, Hcs. }
  destruct (check_response_Ok_inv _ _ _ Hc) as (d & cd & -> & Hh & Hcd & Hi).
  unfold py_get. rewrite Hcd.
  destruct homeworks as [ | homework rest].
  - left. simpl. eexists _, d, cd. auto.
  - pose proof (parse_status_sent homework) as Hps.
    destruct (parse_status homework) as [t3 [message | e]] eqn:Hp;
      simpl in Hps.
    + destruct (send_message_run cfg w message) as (t4 & Hsm & _).
      rewrite Hsm. left. simpl. eexists _, d, cd. auto.
    + right. eexists _, e. split; [ reflexivity | ].
      now rewrite !sent_app, Hs, Hcs, Hps.
Qed.

Lemma try_suite_Ok_inv (w : world) (st : state) t timestamp :
  try_suite cfg w st = (t, Ok timestamp) ->
  exists d,
    w_get w = GetReturns 200 (JsonReturns (PDict d)) /\
    dict_get "current_date" d = Some timestamp /\
    isinstance_int timestamp = true.
Proof.
  intros H.
  destruct (try_suite_cases w st) as [(t' & d & cd & Ht & ?) | (t' & e & Ht & _)];
    rewrite H in Ht; inversion Ht; subst; eauto.
Qed.

Lemma try_suite_Raise_sent (w : world) (st : state) t e :
  try_suite cfg w st = (t, Raise e) -> sent t = [].
Proof.
  intros H.
  destruct (try_suite_cases w st) as [(t' & d & cd & Ht & _) | (t' & e' & Ht & Hs)];
    rewrite H in Ht; inversion Ht; subst; auto.
Qed.

End Loop.

(** ** One iteration of the loop *)

Section Iteration.

Variable cfg : environ.
Variable w : world.
Variable st : state.

Lemma iteration_success t timestamp :
  try_suite cfg w st = (t, Ok timestamp) ->
  iteration cfg w st
  = ((t ++ [Sleep RETRY_PERIOD])%list, Ok (mkState timestamp None)).
Proof.
  intros H. unfold iteration, try_except_else_finally. rewrite H. simpl.
  now rewrite app_nil_r.
Qed.

Lemma iteration_failure t e :
  try_suite cfg w st = (t, Raise e) ->
  exists ts,
    sent ts = [failure_message e] /\
    send_message cfg w (failure_message e) = (ts, Ok tt) /\
    iteration cfg w st
    = if differs (failure_message e) (last_error_message st)
      then ((t ++ Log ERROR (failure_message e) :: ts
               ++ [Sleep RETRY_PERIOD])%list,
            Ok (mkState (current_timestamp st) (Some (failure_message e))))
      else ((t ++ [Log ERROR (failure_message e); Sleep RETRY_PERIOD])%list,
            Ok st).
Proof.
  intros H.
  destruct (send_message_run cfg w (failure_message e)) as (ts & Hsm & Hs).
  exists ts. split; [ exact Hs | ]. split; [ exact Hsm | ].
  unfold iteration, try_except_else_finally, except_suite. rewrite H.
  destruct (differs (failure_message e) (last_error_message st)).
  - cbv [bind logger_error emit]. rewrite Hsm. simpl.
    rewrite app_nil_r, <- app_assoc. reflexivity.
  - simpl. rewrite <- app_assoc. reflexivity.
Qed.

(** No exception leaves an iteration: the loop goes on. *)
Lemma iteration_returns :
  exists t st', iteration cfg w st = (t, Ok st').
Proof.
  destruct (try_suite cfg w st) as [t [timestamp | e]] eqn:H.
  - rewrite (iteration_success _ _ H). eauto.
  - destruct (iteration_failure _ _ H) as (ts & _ & _ & ->).
    destruct (differs _ _); eauto.
Qed.

End Iteration.

Lemma loop_returns (cfg : environ) (ws : list world) :
  forall st, exists t st', loop cfg ws st = (t, Ok st').
Proof.
  induction ws as [ | w rest IH]; intros st; simpl.
  - unfold ret. eauto.
  - destruct (iteration_returns cfg w st) as (t & st1 & H).
    destruct (IH st1) as (t' & st2 & H').
    rewrite (bind_Ok_run _ _ _ _ H), H'. simpl. eauto.
Qed.

(** ** Iterations read off the world *)

Lemma get_api_answer_on_answer
    (cfg : environ) (w : world) (timestamp v : pyval) :
  w_get w = GetReturns 200 (JsonReturns v) ->
  get_api_answer cfg w timestamp
  = (trace (get_api_answer cfg w timestamp), Ok v).
Proof.
  intros Hw. unfold get_api_answer, requests_get, response_json. rewrite Hw.
  reflexivity.
Qed.

Lemma get_api_answer_fails (cfg : environ) (w : world) (timestamp : pyval) :
  (forall v, w_get w <> GetReturns 200 (JsonReturns v)) ->
  exists t e, get_api_answer cfg w timestamp = (t, Raise e).
Proof.
  intros Hw.
  destruct (get_api_answer_cases cfg w timestamp)
    as [(t & v & _ & Hv & _) | (t & e & Hg & _)]; [ | eauto ].
  now elim (Hw v).
Qed.

Lemma try_suite_transport_error (cfg : environ) (w : world) (st : state) :
  (forall v, w_get w <> GetReturns 200 (JsonReturns v)) ->
  exists t e, try_suite cfg w st = (t, Raise e).
Proof.
  intros Hw.
  destruct (get_api_answer_fails cfg w (current_timestamp st) Hw)
    as (t & e & Hg).
  exists t, e. unfold try_suite. now rewrite (bind_Raise_run _ _ _ _ Hg).
Qed.

Lemma check_response_raises_failing_check
    (payload : pyval) (check : ValidatorSpec.ShapeError) :
  failing_check payload = Some check ->
  exists t, check_response payload = (t, Raise (raised_for check)) /\ sent t = [].
Proof.
  unfold failing_check, ValidatorSpec.order, check_response.
  destruct payload as [ | | | | | | d];
    try (intros H; inversion H; subst; eexists; split; reflexivity).
  cbn [find check_fails ValidatorSpec.fails ValidatorSpec.field
         isinstance_dict negb].
  cbv [bind logger_debug emit].
  destruct (dict_get "homeworks" d) as [homeworks | ];
    [ | intros H; inversion H; subst; eexists; split; reflexivity ].
  destruct homeworks as [ | | | | | l | ];
    try (intros H; inversion H; subst; eexists; split; reflexivity).
  cbn [isinstance_list negb].
  destruct (dict_get "current_date" d) as [cd | ];
    [ | intros H; inversion H; subst; eexists; split; reflexivity ].
  destruct (isinstance_int cd); cbn [negb];
    [ discriminate | intros H; inversion H; subst; eexists; split; reflexivity ].
Qed.

Lemma try_suite_shape_error
    (cfg : environ) (w : world) (st : state) (payload : pyval)
    (check : ValidatorSpec.ShapeError) :
  w_get w = GetReturns 200 (JsonReturns payload) ->
  failing_check payload = Some check ->
  exists t, try_suite cfg w st = (t, Raise (raised_for check)).
Proof.
  intros Hw Hfail.
  destruct (check_response_raises_failing_check payload check Hfail)
    as (t2 & Hcheck & _).
  unfold try_suite. cbv [bind].
  rewrite (get_api_answer_on_answer cfg w (current_timestamp st) payload Hw).
  rewrite Hcheck. eauto.
Qed.

(** The [try] suite over a valid answer whose list of homeworks starts
    with [homework], in terms of [parse_status] alone. *)
Lemma try_suite_on_homework
    (cfg : environ) (w : world) (st : state) (d : dict pyval)
    (homework : pyval) (rest : list pyval) (cd : pyval) :
  w_get w = GetReturns 200 (JsonReturns (PDict d)) ->
  dict_get "homeworks" d = Some (PList (homework :: rest)) ->
  dict_get "current_date" d = Some cd ->
  isinstance_int cd = true ->
  try_suite cfg w st
  = match parse_status homework with
    | (t, Raise e) =>
        ((trace (get_api_answer cfg w (current_timestamp st))
          ++ [Log DEBUG "Проверяю, все ли ок с ответом API";
              Log DEBUG "Данные о домашних работах получены"] ++ t)%list,
         Raise e)
    | (t, Ok message) =>
        ((trace (get_api_answer cfg w (current_timestamp st))
          ++ [Log DEBUG "Проверяю, все ли ок с ответом API";
              Log DEBUG "Данные о домашних работах получены"] ++ t
          ++ trace (send_message cfg w message)
          ++ [Log INFO ("Сообщение " ++ message ++ " успешно отправлено")])%list,
         Ok cd)
    end.
Proof.
  intros Hw Hh Hcd Hint.
  unfold try_suite. cbv [bind].
  assert (Hget : get_api_answer cfg w (current_timestamp st)
                 = (trace (get_api_answer cfg w (current_timestamp st)),
                    Ok (PDict d))).
  { unfold get_api_answer, requests_get, response_json. rewrite Hw.
    reflexivity. }
  rewrite Hget at 1.
  assert (Hcheck : check_response (PDict d)
                   = ([Log DEBUG "Проверяю, все ли ок с ответом API";
                       Log DEBUG "Данные о домашних работах получены"],
                      Ok (homework :: rest))).
  { unfold check_response. cbv beta iota. rewrite Hh, Hcd, Hint.
    reflexivity. }
  rewrite Hcheck. unfold py_get. rewrite Hcd.
  destruct (parse_status homework) as [t [message | e]].
  - destruct (send_message_run cfg w message) as (ts & -> & _).
    simpl. now rewrite ?app_nil_r, <- ?app_assoc.
  - simpl. reflexivity.
Qed.

(** The [try] suite over a valid answer with no homework. *)
Lemma try_suite_on_empty
    (cfg : environ) (w : world) (st : state) (d : dict pyval) (cd : pyval) :
  w_get w = GetReturns 200 (JsonReturns (PDict d)) ->
  dict_get "homeworks" d = Some (PList []) ->
  dict_get "current_date" d = Some cd ->
  isinstance_int cd = true ->
  try_suite cfg w st
  = ((trace (get_api_answer cfg w (current_timestamp st))
      ++ [Log DEBUG "Проверяю, все ли ок с ответом API";
          Log DEBUG "Данные о домашних работах получены";
          Log DEBUG "Статус работы не изменился"])%list,
     Ok cd).
Proof.
  intros Hw Hh Hcd Hint. unfold try_suite. cbv [bind].
  rewrite (get_api_answer_on_answer cfg w (current_timestamp st) _ Hw) at 1.
  unfold check_response. cbv beta iota. rewrite Hh, Hcd, Hint.
  unfold py_get. rewrite Hcd. reflexivity.
Qed.

(** A [try] suite that raised leaves the cursor and records the message;
    what is sent is the failure message or nothing. *)
Lemma iteration_after_failure
    (cfg : environ) (w : world) (st : state) t e :
  try_suite cfg w st = (t, Raise e) ->
  outcome (iteration cfg w st)
  = Ok (mkState (current_timestamp st) (Some (failure_message e))) /\
  sent (trace (iteration cfg w st))
  = if differs (failure_message e) (last_error_message st)
    then [failure_message e] else [].
Proof.
  intros Htry.
  destruct (iteration_failure cfg w st t e Htry) as (ts & Hts & _ & ->).
  pose proof (try_suite_Raise_sent cfg w st t e Htry) as Ht.
  destruct (differs (failure_message e) (last_error_message st)) eqn:Hd;
    cbn [trace outcome fst snd].
  - split; [ reflexivity | ].
    rewrite sent_app, Ht. simpl. now rewrite sent_app, Hts.
  - apply differs_false_iff in Hd. split.
    + destruct st as [c l]. simpl in *. now subst l.
    + rewrite sent_app, Ht. reflexivity.
Qed.

(** ** Repeated failures *)

(** Five iterations: the status 404 twice, 500, a valid answer, 404 again.
    The second 404 is silent; the one after the valid answer is not. *)
Example loop_sends_each_new_failure_once :
  sent (trace (loop sample_cfg
                 [refusing 404 None; refusing 404 None; refusing 500 None;
                  answering (api_answer [] 2000); refusing 404 None]
                 (mkState (PInt 1000) None)))
  = [failure_message (refused 404); failure_message (refused 500);
     failure_message (refused 404)].
Proof. reflexivity. Qed.

(** C1.  In the failure branch of an iteration the failure message is
    logged; [send_message] is called with it exactly when it differs from
    [last_error_message]: an identical message is only logged and leaves
    the state as it is, a different one is sent and becomes the new
    [last_error_message], also when the previous failure was of the same
    class and differs only in its text. *)
Theorem failure_notified_iff_message_differs
    (cfg : environ) (w : world) (st : state) (t : list event) (e : exc) :
  try_suite cfg w st = (t, Raise e) ->
  let message := failure_message e in
  let run := iteration cfg w st in
  In (Log ERROR message) (trace run) /\
  (last_error_message st = Some message ->
     sent (trace run) = [] /\ outcome run = Ok st) /\
  (last_error_message st <> Some message ->
     sent (trace run) = [message] /\
     outcome run = Ok (mkState (current_timestamp st) (Some message))) /\
  (forall previous : exc,
     last_error_message st = Some (failure_message previous) ->
     exc_cls previous = exc_cls e ->
     failure_message previous <> message ->
     sent (trace run) = [message]) /\
  (exists st1, outcome run = Ok st1 /\ last_error_message st1 = Some message).
Proof.
  intros H message run.
  destruct (iteration_failure cfg w st t e H) as (ts & Hs & _ & Hrun).
  pose proof (try_suite_Raise_sent cfg w st t e H) as Ht.
  fold message in Hs, Hrun. fold run in Hrun.
  assert (Hdiff : last_error_message st <> Some message ->
                  sent (trace run) = [message] /\
                  outcome run
                  = Ok (mkState (current_timestamp st) (Some message))).
  { intros Hne. apply differs_true_iff in Hne. rewrite Hne in Hrun.
    rewrite Hrun. simpl. split; [ | reflexivity ].
    rewrite sent_app. simpl. now rewrite sent_app, Ht, Hs. }
  split; [ | split; [ | split; [ | split ] ] ].
  - rewrite Hrun. destruct (differs message (last_error_message st)); simpl;
      apply in_or_app; right; simpl; auto.
  - intros Hsame. apply differs_false_iff in Hsame. rewrite Hsame in Hrun.
    rewrite Hrun. simpl. split; [ | reflexivity ].
    rewrite sent_app. simpl. now rewrite Ht.
  - exact Hdiff.
  - intros previous Hlast _ Hne. apply Hdiff. rewrite Hlast. congruence.
  - destruct (differs message (last_error_message st)) eqn:Hd;
      rewrite Hrun; simpl.
    + eexists. split; reflexivity.
    + apply differs_false_iff in Hd. exists st. auto.
Qed.

Lemma failure_notified_iff_message_differs_witness :
  let w := refusing 404 None in
  let same := mkState (PInt 1000) (Some (failure_message (refused 404))) in
  let other := mkState (PInt 1000) (Some (failure_message (refused 500))) in
  (sent (trace (iteration sample_cfg w same)) = [] /\
   outcome (iteration sample_cfg w same) = Ok same) /\
  sent (trace (iteration sample_cfg w other)) = [failure_message (refused 404)].
Proof.
  intros w same other. split.
  - refine (proj1 (proj2 (failure_notified_iff_message_differs
                            sample_cfg w same _ (refused 404) _)) _);
      reflexivity.
  - refine (proj1 (proj2 (proj2 (proj2 (failure_notified_iff_message_differs
                                          sample_cfg w other _ (refused 404) _))))
              (refused 500) _ _ _);
      [ reflexivity | reflexivity | reflexivity | discriminate ].
Defined.

(** C2.  An iteration whose [try] suite raised nothing ends with
    [last_error_message] reset to [None], whatever it held; the next
    failure is then sent, also when its message is one reported before. *)
Theorem success_resets_last_error
    (cfg : environ) (w : world) (st : state) (t : list event)
    (timestamp : pyval) :
  try_suite cfg w st = (t, Ok timestamp) ->
  exists st1,
    outcome (iteration cfg w st) = Ok st1 /\
    last_error_message st1 = None /\
    forall (w2 : world) (t2 : list event) (e2 : exc),
      try_suite cfg w2 st1 = (t2, Raise e2) ->
      sent (trace (iteration cfg w2 st1)) = [failure_message e2].
Proof.
  intros H. exists (mkState timestamp None).
  rewrite (iteration_success cfg w st t timestamp H).
  repeat split. intros w2 t2 e2 H2.
  destruct (iteration_failure cfg w2 _ t2 e2 H2) as (ts & Hs & _ & ->).
  simpl. rewrite sent_app. simpl.
  now rewrite sent_app, (try_suite_Raise_sent _ _ _ _ _ H2), Hs.
Qed.

Lemma success_resets_last_error_witness :
  let before := mkState (PInt 1000) (Some (failure_message (refused 404))) in
  exists st1,
    outcome (iteration sample_cfg (answering (api_answer [] 2000)) before)
    = Ok st1 /\
    last_error_message st1 = None /\
    sent (trace (iteration sample_cfg (refusing 404 None) st1))
    = [failure_message (refused 404)].
Proof.
  intros before.
  destruct (success_resets_last_error
              sample_cfg (answering (api_answer [] 2000)) before _ _ eq_refl)
    as (st1 & Hrun & Hlast & Hnext).
  exists st1. split; [ exact Hrun | ]. split; [ exact Hlast | ].
  inversion Hrun; subst st1.
  exact (Hnext (refusing 404 None) _ (refused 404) eq_refl).
Defined.

(** C10.  When the failure message is new and its delivery raises inside
    [send_message], the delivery error is logged, the iteration still
    records the message in [last_error_message], and a later iteration
    that fails with the same message sends nothing. *)
Theorem undelivered_failure_still_recorded
    (cfg : environ) (w : world) (st : state) (t : list event) (e : exc)
    (failure : string) :
  try_suite cfg w st = (t, Raise e) ->
  last_error_message st <> Some (failure_message e) ->
  w_bot w = Some failure ->
  exists st1,
    outcome (iteration cfg w st) = Ok st1 /\
    In (Log ERROR ("Ошибка при отправке сообщения: " ++ failure))
       (trace (iteration cfg w st)) /\
    last_error_message st1 = Some (failure_message e) /\
    forall (w2 : world) (t2 : list event) (e2 : exc),
      try_suite cfg w2 st1 = (t2, Raise e2) ->
      failure_message e2 = failure_message e ->
      sent (trace (iteration cfg w2 st1)) = [].
Proof.
  intros H Hne Hbot.
  exists (mkState (current_timestamp st) (Some (failure_message e))).
  destruct (iteration_failure cfg w st t e H) as (ts & Hs & Hsm & Hrun).
  apply differs_true_iff in Hne. rewrite Hne in Hrun. rewrite Hrun.
  simpl. repeat split.
  - pose proof (send_message_logs_failure cfg w (failure_message e) failure Hbot)
      as Hlog.
    rewrite Hsm in Hlog. simpl in Hlog.
    apply in_or_app. right. right. apply in_or_app. now left.
  - intros w2 t2 e2 H2 Hsame.
    destruct (iteration_failure cfg w2 _ t2 e2 H2) as (ts2 & _ & _ & Hrun2).
    assert (Hd : differs (failure_message e) (Some (failure_message e)) = false)
      by now apply differs_false_iff.
    cbn [last_error_message] in Hrun2. rewrite Hsame, Hd in Hrun2.
    rewrite Hrun2. simpl. rewrite sent_app. simpl.
    now rewrite (try_suite_Raise_sent _ _ _ _ _ H2).
Qed.

Lemma undelivered_failure_still_recorded_witness :
  let st := mkState (PInt 1000) None in
  exists st1,
    outcome (iteration sample_cfg (refusing 404 (Some "Timed out")) st)
    = Ok st1 /\
    last_error_message st1 = Some (failure_message (refused 404)) /\
    sent (trace (iteration sample_cfg (refusing 404 None) st1)) = [].
Proof.
  intros st.
  destruct (undelivered_failure_still_recorded
              sample_cfg (refusing 404 (Some "Timed out")) st _ (refused 404)
              "Timed out" eq_refl)
    as (st1 & Hrun & _ & Hlast & Hnext);
    [ discriminate | reflexivity | ].
  exists st1. split; [ exact Hrun | ]. split; [ exact Hlast | ].
  inversion Hrun; subst st1.
  exact (Hnext (refusing 404 None) _ (refused 404) eq_refl eq_refl).
Defined.

(** ** [parse_status] *)

Lemma verdict_of_str (status : string) :
  verdict_of (PStr status) = None <->
  status <> "approved" /\ status <> "reviewing" /\ status <> "rejected".
Proof.
  unfold verdict_of, HOMEWORK_VERDICTS. simpl.
  destruct (String.eqb_spec status "approved") as [-> | H1].
  { split; [ discriminate | intros (H & _); now elim H ]. }
  destruct (String.eqb_spec status "reviewing") as [-> | H2].
  { split; [ discriminate | intros (_ & H & _); now elim H ]. }
  destruct (String.eqb_spec status "rejected") as [-> | H3].
  { split; [ discriminate | intros (_ & _ & H); now elim H ]. }
  split; auto.
Qed.

(** C3.  For a record with string fields [homework_name] and [status],
    the status being a key of [HOMEWORK_VERDICTS], [parse_status] returns
    the text 'Изменился статус проверки работы "name". verdict' with the
    phrase the table holds for the status; for the status [approved] the
    phrase is 'Работа проверена: ревьюеру всё понравилось. Ура!'. *)
Theorem parse_status_known_status
    (d : dict pyval) (name status verdict : string) :
  dict_get "homework_name" d = Some (PStr name) ->
  dict_get "status" d = Some (PStr status) ->
  dict_get status HOMEWORK_VERDICTS = Some verdict ->
  outcome (parse_status (PDict d))
  = Ok ("Изменился статус проверки работы " ++ dq ++ name ++ dq ++ ". "
        ++ verdict) /\
  (status = "approved" ->
   outcome (parse_status (PDict d))
   = Ok ("Изменился статус проверки работы " ++ dq ++ name ++ dq
         ++ ". Работа проверена: ревьюеру всё понравилось. Ура!")).
Proof.
  intros Hname Hstatus Hverdict.
  assert (Hrun : outcome (parse_status (PDict d))
                 = Ok ("Изменился статус проверки работы " ++ dq ++ name ++ dq
                       ++ ". " ++ verdict)).
  { change (verdict_of (PStr status) = Some verdict) in Hverdict.
    unfold parse_status. cbv beta iota. rewrite Hname, Hstatus.
    cbv beta iota delta [hashable negb]. rewrite Hverdict. reflexivity. }
  split; [ exact Hrun | ].
  intros ->. rewrite Hrun. cbv in Hverdict. now inversion Hverdict.
Qed.

Lemma parse_status_known_status_witness :
  outcome (parse_status (homework_record "X" "approved"))
  = Ok ("Изменился статус проверки работы " ++ dq ++ "X" ++ dq
        ++ ". Работа проверена: ревьюеру всё понравилось. Ура!").
Proof.
  refine (proj2 (parse_status_known_status
                   [("homework_name", PStr "X"); ("status", PStr "approved")]
                   "X" "approved" _ _ _ _) _);
    reflexivity.
Defined.

(** C4, as the code has it.  Take a record whose [status] is present and
    is none of [approved], [reviewing], [rejected].  When the record has
    [homework_name] and the status is hashable, [parse_status] raises the
    [KeyError] whose text names the status.  In every case [parse_status]
    raises and returns no text, and an iteration whose answer holds the
    record first sends no message of a changed status: all it can hand to
    [send_message] is the failure message of the exception, and that only
    when it differs from [last_error_message]. *)
Theorem unknown_status_raises_key_error
    (d : dict pyval) (status : pyval) :
  dict_get "status" d = Some status ->
  status <> PStr "approved" ->
  status <> PStr "reviewing" ->
  status <> PStr "rejected" ->
  (forall name : pyval,
     dict_get "homework_name" d = Some name ->
     hashable status = true ->
     let unknown :=
       mkExc KeyError ("Статус " ++ py_str status ++ " не распознан") in
     outcome (parse_status (PDict d)) = Raise unknown /\
     includes (py_str status) (exc_arg unknown)) /\
  exists e : exc,
    outcome (parse_status (PDict d)) = Raise e /\
    forall (cfg : environ) (w : world) (st : state) (answer : dict pyval)
           (rest : list pyval) (current_date : pyval),
      w_get w = GetReturns 200 (JsonReturns (PDict answer)) ->
      dict_get "homeworks" answer = Some (PList (PDict d :: rest)) ->
      dict_get "current_date" answer = Some current_date ->
      isinstance_int current_date = true ->
      sent (trace (iteration cfg w st))
      = (if differs (failure_message e) (last_error_message st)
         then [failure_message e] else []) /\
      forall text, In text (sent (trace (iteration cfg w st))) ->
                   text = failure_message e.
Proof.
  intros Hstatus H1 H2 H3.
  assert (Hverdict : verdict_of status = None).
  { destruct status as [ | | | | s | | ]; try reflexivity.
    apply verdict_of_str. repeat split; congruence. }
  split.
  { intros name Hname Hhash unknown. split.
    - unfold parse_status. cbv beta iota. rewrite Hname, Hstatus, Hhash.
      cbv beta iota delta [negb]. now rewrite Hverdict.
    - exists "Статус ", " не распознан". reflexivity. }
  assert (Hraise : exists t e, parse_status (PDict d) = (t, Raise e)).
  { unfold parse_status. cbv beta iota.
    destruct (dict_get "homework_name" d) as [name | ]; [ | simpl; eauto ].
    rewrite Hstatus.
    destruct (hashable status); cbv beta iota delta [negb];
      [ | simpl; eauto ].
    rewrite Hverdict. simpl. eauto. }
  destruct Hraise as (tp & e & Hparse).
  exists e. split; [ now rewrite Hparse | ].
  intros cfg w st answer rest current_date Hw Hh Hcd Hint.
  pose proof (try_suite_on_homework cfg w st answer (PDict d) rest
                current_date Hw Hh Hcd Hint) as Htry.
  rewrite Hparse in Htry.
  destruct (iteration_after_failure cfg w st _ e Htry) as (_ & Hsent).
  split; [ exact Hsent | ].
  intros text Hin. rewrite Hsent in Hin.
  destruct (differs _ _); simpl in Hin; [ | contradiction ].
  destruct Hin as [<- | []]. reflexivity.
Qed.

Lemma unknown_status_raises_key_error_witness :
  let record := homework_record "A" "foo" in
  let nameless := PDict [("status", PStr "foo")] in
  let unknown := mkExc KeyError "Статус foo не распознан" in
  outcome (parse_status record) = Raise unknown /\
  exists e,
    outcome (parse_status nameless) = Raise e /\
    sent (trace (iteration sample_cfg (answering (api_answer [nameless] 2000))
                   (mkState (PInt 1000) None)))
    = [failure_message e].
Proof.
  intros record nameless unknown. split.
  - destruct (unknown_status_raises_key_error
                [("homework_name", PStr "A"); ("status", PStr "foo")]
                (PStr "foo") eq_refl) as (Hnamed & _); try discriminate.
    exact (proj1 (Hnamed (PStr "A") eq_refl eq_refl)).
  - destruct (unknown_status_raises_key_error
                [("status", PStr "foo")] (PStr "foo") eq_refl)
      as (_ & e & Hraise & Hiter); try discriminate.
    exists e. split; [ exact Hraise | ].
    exact (proj1 (Hiter sample_cfg (answering (api_answer [nameless] 2000))
                    (mkState (PInt 1000) None)
                    _ [] (PInt 2000) eq_refl eq_refl eq_refl eq_refl)).
Defined.

(** C4, as stated, fails.  A record with a [status] outside the table and
    no [homework_name] makes [parse_status] raise the [KeyError] of the
    missing key, which does not name the status; a record whose status is
    a list makes it raise a [TypeError]. *)
Lemma unknown_status_claim_counterexample :
  let unknown := mkExc KeyError "Статус foo не распознан" in
  (dict_get "status" [("status", PStr "foo")] = Some (PStr "foo") /\
   verdict_of (PStr "foo") = None /\
   outcome (parse_status (PDict [("status", PStr "foo")]))
   = Raise (mkExc KeyError
              ("В данных о домашке нет ключа " ++ dq ++ "homework_name" ++ dq)) /\
   outcome (parse_status (PDict [("status", PStr "foo")])) <> Raise unknown) /\
  (verdict_of (PList []) = None /\
   exists text,
     outcome (parse_status
                (PDict [("homework_name", PStr "A"); ("status", PList [])]))
     = Raise (mkExc TypeError text) /\
     mkExc TypeError text <> mkExc KeyError "Статус [] не распознан").
Proof.
  intros unknown. repeat split.
  - discriminate.
  - eexists. split; [ reflexivity | discriminate ].
Qed.

(** ** [check_response] *)

Lemma raised_for_inj (c1 c2 : ValidatorSpec.ShapeError) :
  raised_for c1 = raised_for c2 -> c1 = c2.
Proof. destruct c1, c2; intros H; try reflexivity; discriminate H. Qed.

(** C5, as the code has it.  [check_response] raises the exception of the
    first check that fails, in the order: not a mapping, no key
    [homeworks], value of [homeworks] not a list, no key [current_date],
    value of [current_date] not an integer, and returns the list under
    [homeworks] when none fails, with one exception: when only the last
    check fails and the value of [current_date] is a boolean,
    [check_response] returns as well, since [isinstance(True, int)]
    holds. *)
Theorem check_response_first_failing_check (payload : pyval) :
  match ValidatorSpec.first_failing payload,
        ValidatorSpec.field "current_date" payload with
  | Some ValidatorSpec.CurrentDateNotAnInteger, Some (PBool _)
  | None, _ =>
      exists homeworks,
        outcome (check_response payload) = Ok homeworks /\
        ValidatorSpec.field "homeworks" payload = Some (PList homeworks)
  | Some check, _ =>
      outcome (check_response payload) = Raise (raised_for check)
  end.
Proof.
  unfold ValidatorSpec.first_failing, ValidatorSpec.order, check_response.
  destruct payload as [ | | | | | | d]; try reflexivity.
  cbn [find ValidatorSpec.fails ValidatorSpec.field isinstance_dict negb].
  cbv [bind logger_debug emit].
  destruct (dict_get "homeworks" d) as [homeworks | ].
  2: { destruct (dict_get "current_date" d) as [[ | | | | | | ] | ];
         reflexivity. }
  destruct homeworks as [ | | | | | l | ];
    try (destruct (dict_get "current_date" d) as [[ | | | | | | ] | ];
         reflexivity).
  cbn [isinstance_list negb].
  destruct (dict_get "current_date" d) as [cd | ]; [ | reflexivity ].
  destruct cd; cbn [ValidatorSpec.is_integer isinstance_int negb];
    try reflexivity; exists l; split; reflexivity.
Qed.

(** C5, as stated, fails.  With a boolean under [current_date] the fifth
    check of the claim fails, a boolean being no integer, and yet
    [check_response] returns. *)
Lemma check_response_accepts_boolean_date :
  let payload := PDict [("homeworks", PList []); ("current_date", PBool true)] in
  ValidatorSpec.first_failing payload
  = Some ValidatorSpec.CurrentDateNotAnInteger /\
  outcome (check_response payload) = Ok [] /\
  outcome (check_response payload)
  <> Raise (raised_for ValidatorSpec.CurrentDateNotAnInteger).
Proof. repeat split. discriminate. Qed.

(** C6, as the code has it.  When [check_response] returns, what it returns
    is the list under [homeworks] of the response it was given, and that
    response is a dict with an integer or a boolean under [current_date];
    the returned list does not hold [current_date].  The caller, the [try]
    suite of [main], takes the new cursor from the response itself: over
    such an answer it returns the value under [current_date], unless
    [parse_status] raises on the first homework. *)
Theorem check_response_returns_homeworks
    (response : pyval) (homeworks : list pyval) :
  outcome (check_response response) = Ok homeworks ->
  exists d current_date,
    response = PDict d /\
    dict_get "homeworks" d = Some (PList homeworks) /\
    dict_get "current_date" d = Some current_date /\
    ((exists z, current_date = PInt z) \/ (exists b, current_date = PBool b)) /\
    forall (cfg : environ) (w : world) (st : state),
      w_get w = GetReturns 200 (JsonReturns response) ->
      outcome (try_suite cfg w st)
      = match homeworks with
        | [] => Ok current_date
        | homework :: _ =>
            match outcome (parse_status homework) with
            | Ok _ => Ok current_date
            | Raise e => Raise e
            end
        end.
Proof.
  intros H. destruct (check_response response) as [t r] eqn:Hrun.
  simpl in H. subst r.
  destruct (check_response_Ok_inv _ _ _ Hrun) as (d & cd & -> & Hh & Hcd & Hint).
  exists d, cd. repeat split; auto.
  - destruct cd; try discriminate Hint; eauto.
  - intros cfg w st Hw. destruct homeworks as [ | homework rest].
    + now rewrite (try_suite_on_empty cfg w st d cd Hw Hh Hcd Hint).
    + rewrite (try_suite_on_homework cfg w st d homework rest cd Hw Hh Hcd Hint).
      now destruct (parse_status homework) as [tp [message | e]].
Qed.

Lemma check_response_returns_homeworks_witness :
  exists d current_date,
    api_answer [homework_record "A" "rejected"] 2000 = PDict d /\
    dict_get "homeworks" d = Some (PList [homework_record "A" "rejected"]) /\
    dict_get "current_date" d = Some current_date /\
    outcome (try_suite sample_cfg
               (answering (api_answer [homework_record "A" "rejected"] 2000))
               (mkState (PInt 1000) None))
    = Ok current_date.
Proof.
  destruct (check_response_returns_homeworks
              (api_answer [homework_record "A" "rejected"] 2000)
              [homework_record "A" "rejected"] eq_refl)
    as (d & cd & Hd & Hh & Hcd & _ & Hcaller).
  exists d, cd.
  split; [ exact Hd | ]. split; [ exact Hh | ]. split; [ exact Hcd | ].
  exact (Hcaller sample_cfg
           (answering (api_answer [homework_record "A" "rejected"] 2000))
           (mkState (PInt 1000) None) eq_refl).
Defined.

(** C6, as stated, fails.  Two valid responses with different
    [current_date] give the same returned value, the empty list: no
    reading of the returned value yields [current_date]. *)
Lemma check_response_result_lacks_current_date :
  outcome (check_response (api_answer [] 1000)) = Ok [] /\
  outcome (check_response (api_answer [] 2000)) = Ok [] /\
  ~ (exists current_date_of : list pyval -> pyval,
       forall (d : dict pyval) (homeworks : list pyval),
         outcome (check_response (PDict d)) = Ok homeworks ->
         dict_get "current_date" d = Some (current_date_of homeworks)).
Proof.
  split; [ reflexivity | ]. split; [ reflexivity | ].
  intros (current_date_of & H).
  pose proof (H [("homeworks", PList []); ("current_date", PInt 1000)] []
                eq_refl) as H1.
  pose proof (H [("homeworks", PList []); ("current_date", PInt 2000)] []
                eq_refl) as H2.
  simpl in H1, H2. rewrite <- H1 in H2. discriminate H2.
Qed.

(** ** The cursor *)

(** C7.  Over a 200 answer that is a dict with a list under [homeworks]
    and an [int] under [current_date], the iteration leaves the cursor at
    that [current_date], whether nothing was sent (no homework) or the
    text of the first homework was handed to the bot, delivered or not.
    The cursor is left as it was by every iteration that fails: with a
    status error ([parse_status] raises on the first homework), a
    transport error ([requests.get] raises, the status code is not 200,
    the body is not JSON) or a shape error (a check of [check_response]
    fails). *)
Theorem cursor_follows_current_date
    (cfg : environ) (w : world) (st : state) :
  let kept :=
    exists st', outcome (iteration cfg w st) = Ok st' /\
                current_timestamp st' = current_timestamp st in
  (forall (d : dict pyval) (homeworks : list pyval) (cd : pyval),
     w_get w = GetReturns 200 (JsonReturns (PDict d)) ->
     dict_get "homeworks" d = Some (PList homeworks) ->
     dict_get "current_date" d = Some cd ->
     isinstance_int cd = true ->
     match homeworks with
     | [] =>
         outcome (iteration cfg w st) = Ok (mkState cd None) /\
         sent (trace (iteration cfg w st)) = []
     | homework :: _ =>
         match outcome (parse_status homework) with
         | Ok message =>
             outcome (iteration cfg w st) = Ok (mkState cd None) /\
             sent (trace (iteration cfg w st)) = [message]
         | Raise _ => kept
         end
     end) /\
  (forall text, w_get w = GetRaises text -> kept) /\
  (forall code answer, w_get w = GetReturns code answer -> code <> 200 -> kept) /\
  (forall text, w_get w = GetReturns 200 (JsonRaises text) -> kept) /\
  (forall payload check,
     w_get w = GetReturns 200 (JsonReturns payload) ->
     failing_check payload = Some check -> kept).
Proof.
  intros kept.
  assert (Hkept : forall t e, try_suite cfg w st = (t, Raise e) -> kept).
  { intros t e Htry.
    destruct (iteration_after_failure cfg w st t e Htry) as (Ho & _).
    eexists. split; [ exact Ho | reflexivity ]. }
  assert (Htransport : (forall v, w_get w <> GetReturns 200 (JsonReturns v)) ->
                       kept).
  { intros Hw. destruct (try_suite_transport_error cfg w st Hw) as (t & e & H).
    exact (Hkept t e H). }
  split; [ | split; [ | split; [ | split ] ] ].
  - intros d homeworks cd Hw Hh Hcd Hint.
    pose proof (get_api_answer_cases cfg w (current_timestamp st)) as Hget.
    assert (Hgs : sent (trace (get_api_answer cfg w (current_timestamp st))) = []).
    { destruct Hget as [(t1 & v & -> & _ & H) | (t1 & e & -> & _ & H)];
        exact H. }
    destruct homeworks as [ | homework rest].
    + pose proof (try_suite_on_empty cfg w st d cd Hw Hh Hcd Hint) as Htry.
      rewrite (iteration_success cfg w st _ cd Htry). cbn [trace outcome fst snd].
      split; [ reflexivity | ]. now rewrite !sent_app, Hgs.
    + pose proof (try_suite_on_homework cfg w st d homework rest cd
                    Hw Hh Hcd Hint) as Htry.
      pose proof (parse_status_sent homework) as Hps.
      destruct (parse_status homework) as [tp [message | e]];
        cbn [trace outcome fst snd] in *.
      * rewrite (iteration_success cfg w st _ cd Htry).
        cbn [trace outcome fst snd]. split; [ reflexivity | ].
        destruct (send_message_run cfg w message) as (ts & Hsm & Hts).
        rewrite Hsm. cbn [trace fst].
        now rewrite !sent_app, Hgs, Hps, Hts.
      * exact (Hkept _ e Htry).
  - intros text Hw. apply Htransport. intros v. rewrite Hw. discriminate.
  - intros code answer Hw Hcode. apply Htransport. intros v. rewrite Hw.
    intros H. inversion H. contradiction.
  - intros text Hw. apply Htransport. intros v. rewrite Hw. discriminate.
  - intros payload check Hw Hfail.
    destruct (try_suite_shape_error cfg w st payload check Hw Hfail) as (t & H).
    exact (Hkept t _ H).
Qed.

Lemma cursor_follows_current_date_witness :
  let st := mkState (PInt 1000) None in
  let named := api_answer [homework_record "A" "approved"] 2000 in
  (outcome (iteration sample_cfg (answering (api_answer [] 2000)) st)
   = Ok (mkState (PInt 2000) None) /\
   sent (trace (iteration sample_cfg (answering (api_answer [] 2000)) st))
   = []) /\
  outcome (iteration sample_cfg
             (answering_with 1700000000 named (Some "chat is down")) st)
  = Ok (mkState (PInt 2000) None) /\
  (exists st',
     outcome (iteration sample_cfg (refusing 404 None) st) = Ok st' /\
     current_timestamp st' = PInt 1000) /\
  (exists st',
     outcome (iteration sample_cfg
                (answering (PDict [("homeworks", PList [])])) st) = Ok st' /\
     current_timestamp st' = PInt 1000).
Proof.
  intros st named. split; [ | split; [ | split ] ].
  - exact (proj1 (cursor_follows_current_date
                     sample_cfg (answering (api_answer [] 2000)) st)
             [("homeworks", PList []); ("current_date", PInt 2000)]
             [] (PInt 2000) eq_refl eq_refl eq_refl eq_refl).
  - exact (proj1 (proj1 (cursor_follows_current_date
                     sample_cfg
                     (answering_with 1700000000 named (Some "chat is down")) st)
             [("homeworks", PList [homework_record "A" "approved"]);
              ("current_date", PInt 2000)]
             [homework_record "A" "approved"] (PInt 2000)
             eq_refl eq_refl eq_refl eq_refl)).
  - refine (proj1 (proj2 (proj2 (cursor_follows_current_date
                                   sample_cfg (refusing 404 None) st)))
              404 (JsonReturns PNone) eq_refl _).
    discriminate.
  - exact (proj2 (proj2 (proj2 (proj2 (cursor_follows_current_date
                     sample_cfg
                     (answering (PDict [("homeworks", PList [])])) st))))
             (PDict [("homeworks", PList [])])
             ValidatorSpec.MissingCurrentDate eq_refl eq_refl).
Defined.

(** An empty list of homeworks: nothing is sent, the cursor moves. *)
Example iteration_nothing_new :
  let run := iteration sample_cfg (answering (api_answer [] 1000))
               (mkState (PInt 500) None) in
  sent (trace run) = [] /\ outcome run = Ok (mkState (PInt 1000) None).
Proof. split; reflexivity. Qed.

(** One rejected homework: one message with the phrase of the table. *)
Example iteration_rejected_homework :
  let run := iteration sample_cfg
               (answering (api_answer [homework_record "A" "rejected"] 2000))
               (mkState (PInt 500) None) in
  sent (trace run)
  = ["Изменился статус проверки работы " ++ dq ++ "A" ++ dq
     ++ ". Работа проверена: у ревьюера есть замечания."] /\
  outcome run = Ok (mkState (PInt 2000) None).
Proof. split; reflexivity. Qed.

(** ** [get_api_answer] *)

(** C8, as the code has it.  [get_api_answer] issues one request, to
    [ENDPOINT] with [HEADERS], whose only parameter is [from_date]; for a
    cursor other than 0 its value is the cursor, for the cursor 0 it is the
    current time. *)
Theorem get_api_answer_from_date (cfg : environ) (w : world) (cursor : Z) :
  requests (trace (get_api_answer cfg w (PInt cursor)))
  = [(ENDPOINT, HEADERS cfg,
      [("from_date", PInt (if cursor =? 0 then w_time w else cursor))])].
Proof.
  unfold get_api_answer, requests_get, response_json. simpl truthy.
  destruct (cursor =? 0); cbn [negb];
    destruct (w_get w) as [text | code [text | v]]; try reflexivity;
    simpl; destruct (code =? HTTPStatus_OK); reflexivity.
Qed.

(** C8, as stated, fails at the cursor 0: the parameter is the time. *)
Lemma from_date_zero_cursor_counterexample :
  requests (trace (get_api_answer sample_cfg (answering (api_answer [] 1000))
                     (PInt 0)))
  = [(ENDPOINT, HEADERS sample_cfg, [("from_date", PInt 1700000000)])] /\
  PInt 1700000000 <> PInt 0.
Proof. split; [ reflexivity | discriminate ]. Qed.

(** C9 on the code.  When the status code is not 200, [get_api_answer]
    raises; the text of the exception holds the status code, but its class
    is the plain [Exception]: the [ConnectionError] raised first is caught
    by the enclosing handler and wrapped, as is what [requests.get] raises
    when the call cannot be completed. *)
Theorem not_ok_status_raises_plain_exception
    (cfg : environ) (w : world) (timestamp : pyval) (code : Z)
    (answer : json_outcome) :
  w_get w = GetReturns code answer ->
  code <> 200 ->
  outcome (get_api_answer cfg w timestamp) = Raise (refused code) /\
  exc_cls (refused code) = PyException /\
  includes (str_int code) (exc_arg (refused code)) /\
  forall (w' : world) (text : string),
    w_get w' = GetRaises text ->
    exists e, outcome (get_api_answer cfg w' timestamp) = Raise e /\
              exc_cls e = exc_cls (refused code).
Proof.
  intros Hw Hcode. apply Z.eqb_neq in Hcode. repeat split.
  - unfold get_api_answer, requests_get. rewrite Hw. simpl.
    unfold HTTPStatus_OK. rewrite Hcode. reflexivity.
  - exists ("Ошибка при попытке подключения к эндпоинту: "
            ++ "Ответ не получен,код ошибки: "), EmptyString.
    unfold refused. cbn [exc_arg].
    now rewrite append_empty_r, append_assoc.
  - intros w' text Hw'. unfold get_api_answer, requests_get. rewrite Hw'.
    simpl. eauto.
Qed.

Lemma not_ok_status_raises_plain_exception_witness :
  outcome (get_api_answer sample_cfg (refusing 404 None) (PInt 1000))
  = Raise (mkExc PyException
             ("Ошибка при попытке подключения к эндпоинту: "
              ++ "Ответ не получен,код ошибки: 404")).
Proof.
  refine (proj1 (not_ok_status_raises_plain_exception
                   sample_cfg (refusing 404 None) (PInt 1000) 404
                   (JsonReturns PNone) eq_refl _)).
  discriminate.
Defined.

(** * Further properties of the functions *)

Lemma bot_calls_app (t1 t2 : list event) :
  bot_calls (t1 ++ t2) = (bot_calls t1 ++ bot_calls t2)%list.
Proof.
  induction t1 as [ | ev t1 IH]; [ reflexivity | ].
  destruct ev; simpl; now rewrite ?IH.
Qed.

Lemma sleeps_app (t1 t2 : list event) :
  sleeps (t1 ++ t2) = (sleeps t1 ++ sleeps t2)%list.
Proof.
  induction t1 as [ | ev t1 IH]; [ reflexivity | ].
  destruct ev; simpl; now rewrite ?IH.
Qed.

Lemma requests_app (t1 t2 : list event) :
  requests (t1 ++ t2) = (requests t1 ++ requests t2)%list.
Proof.
  induction t1 as [ | ev t1 IH]; [ reflexivity | ].
  destruct ev; simpl; now rewrite ?IH.
Qed.

(** ** [send_message] *)

(** X1.  [send_message] never raises: it calls [bot.send_message] once,
    with [TELEGRAM_CHAT_ID] and the text it was given, makes no request and
    does not sleep, whether the delivery succeeds or raises. *)
Theorem send_message_never_raises
    (cfg : environ) (w : world) (message : string) :
  outcome (send_message cfg w message) = Ok tt /\
  bot_calls (trace (send_message cfg w message))
  = [(TELEGRAM_CHAT_ID cfg, message)] /\
  requests (trace (send_message cfg w message)) = [] /\
  sleeps (trace (send_message cfg w message)) = [].
Proof.
  unfold send_message, bot_send_message.
  destruct (w_bot w) as [failure | ]; simpl; auto.
Qed.

(** ** [get_api_answer] *)

(** X2.  [get_api_answer] returns a value exactly when the status code is
    200 and the body parses, and the value is the parsed body as it is,
    whatever its shape. *)
Theorem get_api_answer_returns_iff
    (cfg : environ) (w : world) (timestamp v : pyval) :
  outcome (get_api_answer cfg w timestamp) = Ok v <->
  w_get w = GetReturns 200 (JsonReturns v).
Proof.
  unfold get_api_answer, requests_get, response_json. split.
  - destruct (w_get w) as [text | code [text | v']]; simpl; try discriminate.
    + destruct (code =? HTTPStatus_OK); discriminate.
    + destruct (code =? HTTPStatus_OK) eqn:E; simpl; try discriminate.
      apply Z.eqb_eq in E. intros H. inversion H. now subst.
  - intros ->. reflexivity.
Qed.

Lemma get_api_answer_returns_iff_witness :
  outcome (get_api_answer sample_cfg (answering (PStr "not a dict")) (PInt 5))
  = Ok (PStr "not a dict").
Proof.
  exact (proj2 (get_api_answer_returns_iff
                  sample_cfg (answering (PStr "not a dict")) (PInt 5)
                  (PStr "not a dict")) eq_refl).
Defined.

(** X3.  Whatever [get_api_answer] raises is a plain [Exception] whose text
    starts with 'Ошибка при попытке подключения к эндпоинту: '; when
    [requests.get] itself raised, the rest of the text is the text of that
    error. *)
Theorem get_api_answer_raises_wrapped
    (cfg : environ) (w : world) (timestamp : pyval) (e : exc) :
  outcome (get_api_answer cfg w timestamp) = Raise e ->
  exc_cls e = PyException /\
  (exists detail,
     exc_arg e = "Ошибка при попытке подключения к эндпоинту: " ++ detail) /\
  (forall text, w_get w = GetRaises text ->
     exc_arg e = "Ошибка при попытке подключения к эндпоинту: " ++ text).
Proof.
  unfold get_api_answer, requests_get, response_json.
  destruct (w_get w) as [text | code [text | v]]; simpl.
  - intros H. inversion H; subst. simpl. repeat split; eauto.
    intros text' H'. now inversion H'.
  - destruct (code =? HTTPStatus_OK); simpl; intros H; inversion H; subst;
      simpl; repeat split; eauto; discriminate.
  - destruct (code =? HTTPStatus_OK); simpl; intros H; inversion H; subst;
      simpl; repeat split; eauto; discriminate.
Qed.

Lemma get_api_answer_raises_wrapped_witness :
  exists e,
    outcome (get_api_answer sample_cfg
               (mkWorld 1700000000 (GetRaises "timed out") None) (PInt 5))
    = Raise e /\
    exc_cls e = PyException /\
    exc_arg e = "Ошибка при попытке подключения к эндпоинту: " ++ "timed out".
Proof.
  eexists. split; [ reflexivity | ].
  destruct (get_api_answer_raises_wrapped
              sample_cfg (mkWorld 1700000000 (GetRaises "timed out") None)
              (PInt 5) _ eq_refl) as (Hcls & _ & Htext).
  split; [ exact Hcls | exact (Htext "timed out" eq_refl) ].
Defined.

(** X4.  When the status code is 200 and the body is not JSON, the text of
    the parse error is wrapped twice: 'Ошибка при попытке подключения к
    эндпоинту: Формат полученного ответа - не JSON: ' and then the text. *)
Theorem get_api_answer_invalid_json
    (cfg : environ) (w : world) (timestamp : pyval) (text : string) :
  w_get w = GetReturns 200 (JsonRaises text) ->
  outcome (get_api_answer cfg w timestamp)
  = Raise (mkExc PyException
             ("Ошибка при попытке подключения к эндпоинту: "
              ++ "Формат полученного ответа - не JSON: " ++ text)).
Proof.
  intros H. unfold get_api_answer, requests_get, response_json.
  rewrite H. reflexivity.
Qed.

Lemma get_api_answer_invalid_json_witness :
  outcome (get_api_answer sample_cfg
             (mkWorld 1700000000 (GetReturns 200 (JsonRaises "Expecting value"))
                None)
             (PInt 5))
  = Raise (mkExc PyException
             ("Ошибка при попытке подключения к эндпоинту: "
              ++ "Формат полученного ответа - не JSON: Expecting value")).
Proof.
  exact (get_api_answer_invalid_json
           sample_cfg
           (mkWorld 1700000000 (GetReturns 200 (JsonRaises "Expecting value"))
              None)
           (PInt 5) "Expecting value" eq_refl).
Defined.

Lemma single_request_of_get_api_answer
    (cfg : environ) (w : world) (timestamp : pyval) :
  requests (trace (get_api_answer cfg w timestamp))
  = [(ENDPOINT, HEADERS cfg,
      [("from_date",
        if truthy timestamp then timestamp else PInt (w_time w))])] /\
  bot_calls (trace (get_api_answer cfg w timestamp)) = [] /\
  sleeps (trace (get_api_answer cfg w timestamp)) = [].
Proof.
  unfold get_api_answer, requests_get, response_json.
  destruct (w_get w) as [text | code [text | v]]; simpl;
    try destruct (code =? HTTPStatus_OK); simpl; auto.
Qed.

(** X5.  Whatever the cursor holds and whatever the answer is,
    [get_api_answer] issues exactly one request: to [ENDPOINT], with the
    header [Authorization: OAuth <PRACTICUM_TOKEN>], and with the single
    parameter [from_date], which is the cursor when the cursor is true and
    the current time when it is false ([None], 0, [False], empty).  It
    calls the bot never and does not sleep. *)
Theorem get_api_answer_one_request
    (cfg : environ) (w : world) (timestamp : pyval) :
  requests (trace (get_api_answer cfg w timestamp))
  = [(ENDPOINT,
      [("Authorization", "OAuth " ++ str_getenv (PRACTICUM_TOKEN cfg))],
      [("from_date",
        if truthy timestamp then timestamp else PInt (w_time w))])] /\
  bot_calls (trace (get_api_answer cfg w timestamp)) = [] /\
  sleeps (trace (get_api_answer cfg w timestamp)) = [].
Proof.
  exact (single_request_of_get_api_answer cfg w timestamp).
Qed.

(** ** [check_response] and [parse_status] *)

Lemma check_response_only_logs (v : pyval) :
  only_debug_logs (trace (check_response v)) = true.
Proof.
  unfold check_response.
  destruct v as [ | | | | | | d]; try reflexivity. simpl.
  destruct (dict_get "homeworks" d) as [[ | | | | | l | ] | ];
    try reflexivity.
  destruct (dict_get "current_date" d) as [cd | ]; try reflexivity.
  destruct (isinstance_int cd); reflexivity.
Qed.

Lemma parse_status_only_logs (v : pyval) :
  only_debug_logs (trace (parse_status v)) = true.
Proof.
  unfold parse_status.
  destruct v as [ | | | | | | d]; try reflexivity. simpl.
  destruct (dict_get "homework_name" d) as [name | ]; try reflexivity.
  destruct (dict_get "status" d) as [status | ]; try reflexivity.
  destruct (hashable status); try reflexivity. simpl.
  destruct (verdict_of status); reflexivity.
Qed.

(** A trace of debug records holds no request, no message, no sleep. *)
Lemma only_debug_logs_quiet (t : list event) :
  only_debug_logs t = true ->
  requests t = [] /\ bot_calls t = [] /\ sent t = [] /\ sleeps t = [].
Proof.
  induction t as [ | ev t IH]; [ auto | ].
  simpl. intros H. apply andb_prop in H as (Hev & Ht).
  destruct ev as [[ | | | ] text | | | ]; try discriminate Hev.
  simpl. auto.
Qed.

(** X6.  [check_response] and [parse_status] do nothing to the outside but
    write debug records: no request, no message, no sleep, on every input
    and on every path, raising or not. *)
Theorem validators_only_log (v : pyval) :
  (only_debug_logs (trace (check_response v)) = true /\
   only_debug_logs (trace (parse_status v)) = true) /\
  (requests (trace (check_response v)) = [] /\
   bot_calls (trace (check_response v)) = [] /\
   sleeps (trace (check_response v)) = []) /\
  (requests (trace (parse_status v)) = [] /\
   bot_calls (trace (parse_status v)) = [] /\
   sleeps (trace (parse_status v)) = []).
Proof.
  pose proof (check_response_only_logs v) as Hc.
  pose proof (parse_status_only_logs v) as Hp.
  destruct (only_debug_logs_quiet _ Hc) as (? & ? & _ & ?).
  destruct (only_debug_logs_quiet _ Hp) as (? & ? & _ & ?).
  auto 10.
Qed.

(** X7.  The checks of [parse_status] come in this order: a homework that
    is not a dict raises a [TypeError]; a dict without [homework_name]
    raises the [KeyError] of that key, whether it has a [status] or not;
    a dict with [homework_name] and without [status] raises the [KeyError]
    of [status]. *)
Theorem parse_status_shape_errors (homework : pyval) :
  (isinstance_dict homework = false ->
   outcome (parse_status homework)
   = Raise (mkExc TypeError "Данные о домашке не являются словарем")) /\
  (forall d, homework = PDict d ->
     dict_get "homework_name" d = None ->
     outcome (parse_status homework)
     = Raise (mkExc KeyError
                ("В данных о домашке нет ключа " ++ dq ++ "homework_name"
                 ++ dq))) /\
  (forall d name, homework = PDict d ->
     dict_get "homework_name" d = Some name ->
     dict_get "status" d = None ->
     outcome (parse_status homework)
     = Raise (mkExc KeyError
                ("В данных о домашке нет ключа " ++ dq ++ "status" ++ dq))).
Proof.
  split; [ | split ].
  - destruct homework; try reflexivity. discriminate.
  - intros d -> H. unfold parse_status. cbv beta iota. now rewrite H.
  - intros d name -> Hn Hs. unfold parse_status. cbv beta iota.
    now rewrite Hn, Hs.
Qed.

Lemma parse_status_shape_errors_witness :
  outcome (parse_status (PList []))
  = Raise (mkExc TypeError "Данные о домашке не являются словарем") /\
  outcome (parse_status (PDict [("status", PStr "approved")]))
  = Raise (mkExc KeyError
             ("В данных о домашке нет ключа " ++ dq ++ "homework_name" ++ dq)) /\
  outcome (parse_status (PDict [("homework_name", PStr "A")]))
  = Raise (mkExc KeyError
             ("В данных о домашке нет ключа " ++ dq ++ "status" ++ dq)).
Proof.
  split; [ | split ].
  - exact (proj1 (parse_status_shape_errors (PList [])) eq_refl).
  - exact (proj1 (proj2 (parse_status_shape_errors
                           (PDict [("status", PStr "approved")])))
             _ eq_refl eq_refl).
  - exact (proj2 (proj2 (parse_status_shape_errors
                           (PDict [("homework_name", PStr "A")])))
             _ (PStr "A") eq_refl eq_refl eq_refl).
Defined.

(** X8.  [parse_status] returns a text only for a dict that has
    [homework_name] and whose [status] is one of the strings [approved],
    [reviewing], [rejected]; the text holds [str(homework_name)], whatever
    kind of value the name is, and the phrase of the table. *)
Theorem parse_status_returns_only_known (homework : pyval) (text : string) :
  outcome (parse_status homework) = Ok text ->
  exists d name status verdict,
    homework = PDict d /\
    dict_get "homework_name" d = Some name /\
    dict_get "status" d = Some (PStr status) /\
    (status = "approved" \/ status = "reviewing" \/ status = "rejected") /\
    dict_get status HOMEWORK_VERDICTS = Some verdict /\
    text = "Изменился статус проверки работы " ++ dq ++ py_str name ++ dq
           ++ ". " ++ verdict.
Proof.
  unfold parse_status.
  destruct homework as [ | | | | | | d]; try discriminate. cbv beta iota.
  destruct (dict_get "homework_name" d) as [name | ] eqn:Hn; try discriminate.
  destruct (dict_get "status" d) as [status | ] eqn:Hs; try discriminate.
  destruct (hashable status); cbv beta iota delta [negb]; try discriminate.
  destruct (verdict_of status) as [verdict | ] eqn:Hv; try discriminate.
  intros H. inversion H; subst text.
  destruct status as [ | | | | s | | ]; try discriminate.
  exists d, name, s, verdict. repeat split; auto.
  destruct (String.eqb_spec s "approved") as [ | H1]; [ now left | ].
  destruct (String.eqb_spec s "reviewing") as [ | H2]; [ now auto | ].
  destruct (String.eqb_spec s "rejected") as [ | H3]; [ now auto | ].
  assert (Hnone : verdict_of (PStr s) = None) by now apply verdict_of_str.
  congruence.
Qed.

Lemma parse_status_returns_only_known_witness :
  exists d name status verdict,
    PDict [("homework_name", PList [PStr a_nbsp_b]);
           ("status", PStr "reviewing")] = PDict d /\
    dict_get "homework_name" d = Some name /\
    dict_get "status" d = Some (PStr status) /\
    (status = "approved" \/ status = "reviewing" \/ status = "rejected") /\
    dict_get status HOMEWORK_VERDICTS = Some verdict /\
    "Изменился статус проверки работы " ++ dq ++ "['a" ++ backslash ++ "xa0b']"
    ++ dq ++ ". Работа взята на проверку ревьюером."
    = "Изменился статус проверки работы " ++ dq ++ py_str name ++ dq
      ++ ". " ++ verdict.
Proof.
  exact (parse_status_returns_only_known
           (PDict [("homework_name", PList [PStr a_nbsp_b]);
                   ("status", PStr "reviewing")])
           _ eq_refl).
Defined.

(** X9.  A [status] that is a list or a dict makes [parse_status] raise a
    [TypeError], not the [KeyError] of an unknown status: the table cannot
    be asked about a value that has no hash. *)
Theorem parse_status_unhashable_status
    (d : dict pyval) (name status : pyval) :
  dict_get "homework_name" d = Some name ->
  dict_get "status" d = Some status ->
  isinstance_list status = true \/ isinstance_dict status = true ->
  exists text,
    outcome (parse_status (PDict d)) = Raise (mkExc TypeError text).
Proof.
  intros Hn Hs Hkind. unfold parse_status. cbv beta iota. rewrite Hn, Hs.
  destruct status; destruct Hkind as [H | H]; try discriminate H;
    eexists; reflexivity.
Qed.

Lemma parse_status_unhashable_status_witness :
  exists text,
    outcome (parse_status
               (PDict [("homework_name", PStr "A");
                       ("status", PList [PStr "approved"])]))
    = Raise (mkExc TypeError text).
Proof.
  exact (parse_status_unhashable_status
           [("homework_name", PStr "A"); ("status", PList [PStr "approved"])]
           (PStr "A") (PList [PStr "approved"]) eq_refl eq_refl
           (or_introl eq_refl)).
Defined.

(** ** The trace of an iteration *)

Section IterationTrace.

Variable cfg : environ.
Variable w : world.
Variable st : state.

(** The trace of the [try] suite, part by part. *)
Lemma try_suite_trace :
  trace (try_suite cfg w st)
  = (trace (get_api_answer cfg w (current_timestamp st)) ++
     match outcome (get_api_answer cfg w (current_timestamp st)) with
     | Raise _ => []
     | Ok response =>
         trace (check_response response) ++
         match outcome (check_response response) with
         | Raise _ => []
         | Ok [] => [Log DEBUG "Статус работы не изменился"]
         | Ok (homework :: _) =>
             trace (parse_status homework) ++
             match outcome (parse_status homework) with
             | Raise _ => []
             | Ok message =>
                 trace (send_message cfg w message) ++
                 [Log INFO ("Сообщение " ++ message ++ " успешно отправлено")]
             end
         end
     end)%list.
Proof.
  unfold try_suite. cbv [bind].
  destruct (get_api_answer cfg w (current_timestamp st)) as [t1 [v | e]];
    cbn [trace outcome fst snd]; [ | now rewrite ?app_nil_r ].
  pose proof (check_response_Ok_inv v) as Hinv.
  destruct (check_response v) as [t2 [homeworks | e]];
    cbn [trace outcome fst snd]; [ | now rewrite ?app_nil_r ].
  destruct (Hinv t2 homeworks eq_refl) as (d & cd & -> & _ & _ & _).
  unfold py_get. cbn [ret].
  destruct homeworks as [ | homework rest].
  - simpl. now rewrite ?app_nil_r, <- ?app_assoc.
  - destruct (parse_status homework) as [t3 [message | e]];
      cbn [trace outcome fst snd]; [ | now rewrite ?app_nil_r ].
    destruct (send_message_run cfg w message) as (t4 & -> & _).
    simpl. now rewrite ?app_nil_r, <- ?app_assoc.
Qed.

(** The [try] suite makes the one request of [get_api_answer], sends at
    most one message and does not sleep. *)
Lemma try_suite_effects :
  requests (trace (try_suite cfg w st))
  = requests (trace (get_api_answer cfg w (current_timestamp st))) /\
  sleeps (trace (try_suite cfg w st)) = [] /\
  (List.length (sent (trace (try_suite cfg w st))) <= 1)%nat.
Proof.
  rewrite try_suite_trace.
  rewrite requests_app, sleeps_app, sent_app.
  assert (Hget : sleeps (trace (get_api_answer cfg w (current_timestamp st))) = []
                 /\ sent (trace (get_api_answer cfg w (current_timestamp st))) = []).
  { unfold get_api_answer, requests_get, response_json.
    destruct (w_get w) as [text | code [text | v]]; simpl;
      try destruct (code =? HTTPStatus_OK); simpl; auto. }
  destruct Hget as (-> & ->).
  destruct (outcome (get_api_answer cfg w (current_timestamp st)))
    as [v | e]; [ | simpl; rewrite ?app_nil_r; auto ].
  rewrite requests_app, sleeps_app, sent_app.
  destruct (only_debug_logs_quiet _ (check_response_only_logs v))
    as (-> & _ & -> & ->).
  destruct (outcome (check_response v)) as [[ | homework rest] | e];
    try (simpl; rewrite ?app_nil_r; auto).
  rewrite requests_app, sleeps_app, sent_app.
  destruct (only_debug_logs_quiet _ (parse_status_only_logs homework))
    as (-> & _ & -> & ->).
  destruct (outcome (parse_status homework)) as [message | e];
    [ | simpl; rewrite ?app_nil_r; auto ].
  rewrite requests_app, sleeps_app, sent_app.
  unfold send_message, bot_send_message.
  destruct (w_bot w); simpl; rewrite ?app_nil_r; auto.
Qed.

(** An iteration makes one request, sleeps once, for [RETRY_PERIOD], and
    sends at most one message. *)
Lemma iteration_effects :
  requests (trace (iteration cfg w st))
  = requests (trace (get_api_answer cfg w (current_timestamp st))) /\
  sleeps (trace (iteration cfg w st)) = [RETRY_PERIOD] /\
  (List.length (sent (trace (iteration cfg w st))) <= 1)%nat.
Proof.
  destruct try_suite_effects as (Hr & Hs & Hm).
  destruct (try_suite cfg w st) as [t [timestamp | e]] eqn:H;
    cbn [trace fst] in Hr, Hs, Hm.
  - rewrite (iteration_success cfg w st t timestamp H). cbn [trace fst].
    rewrite requests_app, sleeps_app, sent_app, Hs, <- Hr. simpl.
    rewrite ?app_nil_r. auto.
  - destruct (iteration_failure cfg w st t e H) as (ts & Hts & Hsm & ->).
    pose proof (try_suite_Raise_sent cfg w st t e H) as Ht.
    assert (Hquiet : requests ts = [] /\ sleeps ts = []).
    { revert Hsm. unfold send_message, bot_send_message.
      destruct (w_bot w); simpl; intros Hsm; inversion Hsm; auto. }
    destruct Hquiet as (Hrq & Hsl).
    destruct (differs _ _); cbn [trace fst];
      rewrite requests_app, sleeps_app, sent_app, Hs, <- Hr, Ht; simpl.
    + rewrite requests_app, sleeps_app, sent_app, Hrq, Hsl, Hts. simpl.
      rewrite ?app_nil_r. auto.
    + rewrite ?app_nil_r. auto.
Qed.

End IterationTrace.

(** ** [main] *)

Lemma token_set_false_iff (v : option string) :
  token_set v = false <-> v = None \/ v = Some EmptyString.
Proof.
  destruct v as [s | ]; simpl.
  - rewrite negb_false_iff, String.eqb_eq. split.
    + intros ->. now right.
    + intros [H | H]; [ discriminate | now inversion H ].
  - split; auto.
Qed.

Lemma loop_cons (cfg : environ) (w : world) (ws : list world) (st : state) :
  exists t st1,
    iteration cfg w st = (t, Ok st1) /\
    loop cfg (w :: ws) st
    = ((t ++ trace (loop cfg ws st1))%list, outcome (loop cfg ws st1)).
Proof.
  destruct (iteration_returns cfg w st) as (t & st1 & H).
  exists t, st1. split; [ exact H | ].
  simpl. now rewrite (bind_Ok_run _ _ _ _ H).
Qed.

(** X10.  When one of the three variables is unset or empty, [main] writes
    the debug record of [check_tokens] and one critical record, and raises
    [MissedTokenError]: the bot is not constructed, no request is made, no
    message sent, no iteration run, whatever the world would answer. *)
Theorem main_without_token_stops
    (cfg : environ) (s : startup) (ws : list world) :
  PRACTICUM_TOKEN cfg = None \/ PRACTICUM_TOKEN cfg = Some EmptyString \/
  TELEGRAM_TOKEN cfg = None \/ TELEGRAM_TOKEN cfg = Some EmptyString \/
  TELEGRAM_CHAT_ID cfg = None \/ TELEGRAM_CHAT_ID cfg = Some EmptyString ->
  main cfg s ws
  = ([Log DEBUG "Проверяю токены";
      Log CRITICAL "Отсутствует один или несколько токенов."],
     Raise (mkExc MissedTokenError "Отсутствует один или несколько токенов.")).
Proof.
  intros H.
  assert (Hc : token_set (PRACTICUM_TOKEN cfg) && token_set (TELEGRAM_TOKEN cfg)
               && token_set (TELEGRAM_CHAT_ID cfg) = false).
  { destruct H as [H | [H | [H | [H | [H | H]]]]];
      rewrite H; simpl; rewrite ?andb_false_r; reflexivity. }
  unfold main, check_tokens. cbv [bind logger_debug emit ret].
  rewrite Hc. reflexivity.
Qed.

Lemma main_without_token_stops_witness :
  requests (trace (main (mkEnviron (Some "practicum-token") (Some EmptyString)
                           (Some "42"))
                     (mkStartup None 1700000000)
                     [answering (api_answer [] 2000); refusing 404 None]))
  = [].
Proof.
  rewrite (main_without_token_stops
             (mkEnviron (Some "practicum-token") (Some EmptyString) (Some "42"))
             (mkStartup None 1700000000)
             [answering (api_answer [] 2000); refusing 404 None]
             (or_intror (or_intror (or_intror (or_introl eq_refl))))).
  reflexivity.
Defined.

(** One request and one sleep for each iteration of the loop. *)
Lemma loop_effects (cfg : environ) (ws : list world) :
  forall st,
    List.length (requests (trace (loop cfg ws st))) = List.length ws /\
    sleeps (trace (loop cfg ws st)) = repeat RETRY_PERIOD (List.length ws) /\
    (List.length (sent (trace (loop cfg ws st))) <= List.length ws)%nat.
Proof.
  induction ws as [ | w rest IH]; intros st; [ simpl; auto | ].
  destruct (loop_cons cfg w rest st) as (t & st1 & Hit & ->).
  destruct (iteration_effects cfg w st) as (Hr & Hs & Hm).
  rewrite Hit in Hr, Hs, Hm. cbn [trace fst] in Hr, Hs, Hm.
  destruct (IH st1) as (IHr & IHs & IHm).
  cbn [trace fst] in *.
  rewrite requests_app, sleeps_app, sent_app, !length_app, Hr, Hs, IHs.
  destruct (single_request_of_get_api_answer cfg w (current_timestamp st))
    as (-> & _).
  simpl. split; [ congruence | ]. split; [ reflexivity | lia ].
Qed.

(** X11.  With the three variables set and not empty, [main] raises only
    what the constructor [Bot] raises, and then before any request.  When
    the constructor returns, [main] never raises: whatever the HTTP answers
    and the chat do, every iteration is run, and each makes exactly one
    request and sleeps once, for [RETRY_PERIOD]. *)
Theorem main_runs_every_iteration
    (cfg : environ) (s : startup) (ws : list world)
    (practicum telegram chat : string) :
  PRACTICUM_TOKEN cfg = Some practicum -> practicum <> EmptyString ->
  TELEGRAM_TOKEN cfg = Some telegram -> telegram <> EmptyString ->
  TELEGRAM_CHAT_ID cfg = Some chat -> chat <> EmptyString ->
  (s_bot s = None ->
   (exists st, outcome (main cfg s ws) = Ok st) /\
   List.length (requests (trace (main cfg s ws))) = List.length ws /\
   sleeps (trace (main cfg s ws)) = repeat RETRY_PERIOD (List.length ws)) /\
  (forall text, s_bot s = Some text ->
     main cfg s ws
     = ([Log DEBUG "Проверяю токены"], Raise (mkExc ExternalError text))).
Proof.
  intros Hp Hpne Ht Htne Hc Hcne.
  assert (Hcheck : token_set (PRACTICUM_TOKEN cfg)
                   && token_set (TELEGRAM_TOKEN cfg)
                   && token_set (TELEGRAM_CHAT_ID cfg) = true).
  { unfold token_set. rewrite Hp, Ht, Hc.
    apply String.eqb_neq in Hpne, Htne, Hcne.
    now rewrite Hpne, Htne, Hcne. }
  unfold main, check_tokens, Bot. cbv [bind logger_debug emit ret].
  rewrite Hcheck. cbn [negb]. split.
  - intros ->.
    destruct (loop_returns cfg ws (mkState (PInt (s_time s)) None))
      as (t & st & Hrun).
    destruct (loop_effects cfg ws (mkState (PInt (s_time s)) None))
      as (Hr & Hs & _).
    rewrite Hrun in *. cbn [trace outcome fst snd app] in *.
    split; [ exists st; reflexivity | auto ].
  - intros text ->. reflexivity.
Qed.

Lemma main_runs_every_iteration_witness :
  let ws := [mkWorld 1700000000 (GetRaises "timed out") (Some "chat is down");
             refusing 500 None;
             answering (PList []);
             answering (api_answer [homework_record "A" "approved"] 2000)] in
  ((exists st, outcome (main sample_cfg (mkStartup None 1700000000) ws) = Ok st) /\
   List.length (requests (trace (main sample_cfg (mkStartup None 1700000000) ws)))
   = 4%nat /\
   sleeps (trace (main sample_cfg (mkStartup None 1700000000) ws))
   = [600; 600; 600; 600]) /\
  outcome (main sample_cfg (mkStartup (Some "Invalid token") 1700000000) ws)
  = Raise (mkExc ExternalError "Invalid token").
Proof.
  intros ws. split.
  - refine (proj1 (main_runs_every_iteration
                     sample_cfg (mkStartup None 1700000000) ws
                     "practicum-token" "telegram-token" "42"
                     eq_refl _ eq_refl _ eq_refl _) eq_refl);
      discriminate.
  - rewrite (proj2 (main_runs_every_iteration
                      sample_cfg (mkStartup (Some "Invalid token") 1700000000)
                      ws "practicum-token" "telegram-token" "42"
                      eq_refl ltac:(discriminate) eq_refl ltac:(discriminate)
                      eq_refl ltac:(discriminate))
               "Invalid token" eq_refl).
    reflexivity.
Defined.

(** X12.  The loop sends at most one message for each iteration, from
    whatever state it starts. *)
Theorem loop_sends_at_most_one_per_iteration
    (cfg : environ) (ws : list world) (st : state) :
  (List.length (sent (trace (loop cfg ws st))) <= List.length ws)%nat.
Proof.
  now destruct (loop_effects cfg ws st) as (_ & _ & H).
Qed.

(** ** Runs of the loop *)

(** Once a failure message is recorded, iterations that fail with it again
    send nothing and leave the state as it is. *)
Lemma loop_same_failure_silent
    (cfg : environ) (cursor : pyval) (m : string) (ws : list world) :
  (forall w, In w ws ->
     exists t e, try_suite cfg w (mkState cursor None) = (t, Raise e) /\
                 failure_message e = m) ->
  sent (trace (loop cfg ws (mkState cursor (Some m)))) = [] /\
  outcome (loop cfg ws (mkState cursor (Some m)))
  = Ok (mkState cursor (Some m)).
Proof.
  induction ws as [ | w rest IH]; intros Hall; [ simpl; auto | ].
  destruct (Hall w (or_introl eq_refl)) as (t & e & Htry & Hm).
  change (try_suite cfg w (mkState cursor None))
    with (try_suite cfg w (mkState cursor (Some m))) in Htry.
  destruct (iteration_failure cfg w _ t e Htry) as (ts & _ & _ & Hit).
  pose proof (try_suite_Raise_sent cfg w _ t e Htry) as Ht.
  cbn [last_error_message current_timestamp] in Hit. rewrite Hm in Hit.
  assert (Hd : differs m (Some m) = false) by now apply differs_false_iff.
  rewrite Hd in Hit.
  destruct (IH (fun w' H' => Hall w' (or_intror H'))) as (IHs & IHo).
  simpl. rewrite (bind_Ok_run _ _ _ _ Hit).
  unfold trace, outcome in *. cbn [fst snd] in *. split; [ | exact IHo ].
  rewrite !sent_app, Ht, IHs. reflexivity.
Qed.

(** X13.  When every iteration of a run fails with the same failure
    message, starting with no message recorded, the message is sent once,
    in the first iteration, however long the run; the cursor stays where it
    was and the message stays recorded. *)
Theorem same_failure_sent_once
    (cfg : environ) (cursor : pyval) (m : string) (ws : list world) :
  (forall w, In w ws ->
     exists t e, try_suite cfg w (mkState cursor None) = (t, Raise e) /\
                 failure_message e = m) ->
  sent (trace (loop cfg ws (mkState cursor None)))
  = match ws with [] => [] | _ :: _ => [m] end /\
  outcome (loop cfg ws (mkState cursor None))
  = Ok (mkState cursor (match ws with [] => None | _ :: _ => Some m end)).
Proof.
  destruct ws as [ | w rest]; intros Hall; [ simpl; auto | ].
  destruct (Hall w (or_introl eq_refl)) as (t & e & Htry & Hm).
  destruct (iteration_failure cfg w _ t e Htry) as (ts & Hts & _ & Hit).
  pose proof (try_suite_Raise_sent cfg w _ t e Htry) as Ht.
  cbn [last_error_message current_timestamp differs] in Hit.
  rewrite Hm in Hit, Hts.
  destruct (loop_same_failure_silent cfg cursor m rest
              (fun w' H' => Hall w' (or_intror H'))) as (Hs & Ho).
  simpl. rewrite (bind_Ok_run _ _ _ _ Hit).
  unfold trace, outcome in *. cbn [fst snd] in *. split; [ | exact Ho ].
  rewrite sent_app, Hs, sent_app, Ht. simpl.
  rewrite sent_app, Hts. reflexivity.
Qed.

Lemma same_failure_sent_once_witness :
  let ws := [refusing 503 None; refusing 503 (Some "chat is down");
             refusing 503 None] in
  sent (trace (loop sample_cfg ws (mkState (PInt 1000) None)))
  = [failure_message (refused 503)] /\
  outcome (loop sample_cfg ws (mkState (PInt 1000) None))
  = Ok (mkState (PInt 1000) (Some (failure_message (refused 503)))).
Proof.
  intros ws.
  refine (same_failure_sent_once sample_cfg (PInt 1000)
            (failure_message (refused 503)) ws _).
  intros w [<- | [<- | [<- | []]]]; eexists _, (refused 503);
    split; reflexivity.
Defined.

(** ** Iterations over an answer *)

(** X14.  Only the first homework of an answer is looked at: two answers
    with the same first homework and the same [current_date] make the same
    iteration, event for event, whatever follows in the lists and whatever
    else the answers hold. *)
Theorem only_first_homework_matters
    (cfg : environ) (now : Z) (bot : option string) (st : state)
    (d1 d2 : dict pyval) (homework : pyval) (rest1 rest2 : list pyval)
    (cd : pyval) :
  dict_get "homeworks" d1 = Some (PList (homework :: rest1)) ->
  dict_get "homeworks" d2 = Some (PList (homework :: rest2)) ->
  dict_get "current_date" d1 = Some cd ->
  dict_get "current_date" d2 = Some cd ->
  isinstance_int cd = true ->
  iteration cfg (answering_with now (PDict d1) bot) st
  = iteration cfg (answering_with now (PDict d2) bot) st.
Proof.
  intros Hh1 Hh2 Hc1 Hc2 Hint.
  unfold iteration, try_except_else_finally.
  rewrite (try_suite_on_homework cfg (answering_with now (PDict d1) bot) st
             d1 homework rest1 cd eq_refl Hh1 Hc1 Hint).
  rewrite (try_suite_on_homework cfg (answering_with now (PDict d2) bot) st
             d2 homework rest2 cd eq_refl Hh2 Hc2 Hint).
  reflexivity.
Qed.

Lemma only_first_homework_matters_witness :
  iteration sample_cfg
    (answering_with 1700000000
       (api_answer [homework_record "A" "approved";
                    homework_record "B" "rejected"] 2000) None)
    (mkState (PInt 1000) None)
  = iteration sample_cfg
      (answering_with 1700000000
         (api_answer [homework_record "A" "approved"] 2000) None)
      (mkState (PInt 1000) None).
Proof.
  exact (only_first_homework_matters sample_cfg 1700000000 None
           (mkState (PInt 1000) None)
           [("homeworks", PList [homework_record "A" "approved";
                                 homework_record "B" "rejected"]);
            ("current_date", PInt 2000)]
           [("homeworks", PList [homework_record "A" "approved"]);
            ("current_date", PInt 2000)]
           (homework_record "A" "approved")
           [homework_record "B" "rejected"] [] (PInt 2000)
           eq_refl eq_refl eq_refl eq_refl eq_refl).
Defined.

(** X15.  Over a valid answer whose first homework [parse_status] turns
    into a text, the iteration hands that text to the bot once, moves the
    cursor to [current_date], clears [last_error_message] and records
    'Сообщение ... успешно отправлено', also when the delivery raised; the
    delivery error is then logged and the text is not sent again. *)
Theorem status_message_iteration
    (cfg : environ) (w : world) (st : state) (d : dict pyval)
    (homework : pyval) (rest : list pyval) (cd : pyval) (message : string) :
  w_get w = GetReturns 200 (JsonReturns (PDict d)) ->
  dict_get "homeworks" d = Some (PList (homework :: rest)) ->
  dict_get "current_date" d = Some cd ->
  isinstance_int cd = true ->
  outcome (parse_status homework) = Ok message ->
  outcome (iteration cfg w st) = Ok (mkState cd None) /\
  sent (trace (iteration cfg w st)) = [message] /\
  In (Log INFO ("Сообщение " ++ message ++ " успешно отправлено"))
     (trace (iteration cfg w st)) /\
  (forall failure, w_bot w = Some failure ->
     In (Log ERROR ("Ошибка при отправке сообщения: " ++ failure))
        (trace (iteration cfg w st))).
Proof.
  intros Hw Hh Hcd Hint Hparse.
  pose proof (try_suite_on_homework cfg w st d homework rest cd Hw Hh Hcd Hint)
    as Htry.
  pose proof (parse_status_sent homework) as Hps.
  destruct (parse_status homework) as [t r]. simpl in Hparse, Hps. subst r.
  rewrite (iteration_success cfg w st _ cd Htry).
  destruct (single_request_of_get_api_answer cfg w (current_timestamp st))
    as (_ & Hbot & _).
  assert (Hgs : sent (trace (get_api_answer cfg w (current_timestamp st))) = []).
  { destruct (get_api_answer_cases cfg w (current_timestamp st))
      as [(t1 & v & -> & _ & H) | (t1 & e & -> & _ & H)]; exact H. }
  destruct (send_message_run cfg w message) as (ts & Hsm & Hts).
  rewrite Hsm. cbn [trace outcome fst snd].
  split; [ reflexivity | ]. split; [ | split ].
  - rewrite !sent_app, Hgs, Hps, Hts. reflexivity.
  - rewrite ?in_app_iff. simpl. rewrite ?in_app_iff. simpl. tauto.
  - intros failure Hf.
    pose proof (send_message_logs_failure cfg w message failure Hf) as Hlog.
    rewrite Hsm in Hlog. cbn [trace fst] in Hlog.
    rewrite ?in_app_iff. simpl. rewrite ?in_app_iff. tauto.
Qed.

Lemma status_message_iteration_witness :
  let w := answering_with 1700000000
             (api_answer [homework_record "A" "reviewing"] 2000)
             (Some "chat is down") in
  let st := mkState (PInt 1000) (Some "an earlier failure") in
  outcome (iteration sample_cfg w st) = Ok (mkState (PInt 2000) None) /\
  sent (trace (iteration sample_cfg w st))
  = ["Изменился статус проверки работы " ++ dq ++ "A" ++ dq
     ++ ". Работа взята на проверку ревьюером."] /\
  In (Log ERROR "Ошибка при отправке сообщения: chat is down")
     (trace (iteration sample_cfg w st)).
Proof.
  intros w st.
  destruct (status_message_iteration sample_cfg w st
              [("homeworks", PList [homework_record "A" "reviewing"]);
               ("current_date", PInt 2000)]
              (homework_record "A" "reviewing") [] (PInt 2000)
              ("Изменился статус проверки работы " ++ dq ++ "A" ++ dq
               ++ ". Работа взята на проверку ревьюером.")
              eq_refl eq_refl eq_refl eq_refl eq_refl)
    as (Ho & Hs & _ & Hlog).
  split; [ exact Ho | ]. split; [ exact Hs | ].
  exact (Hlog "chat is down" eq_refl).
Defined.



(** X17.  The request of an iteration asks from the cursor the iteration
    before left.  After a 200 answer with a list under [homeworks] and an
    [int] under [current_date], with no homework or with a first homework
    [parse_status] accepts, [from_date] is that [current_date].  After an
    iteration that failed (the answer is not a 200 with a JSON body, or a
    check of [check_response] fails, or [parse_status] raises on the first
    homework), it is the cursor that iteration had.  In both cases a
    cursor that is false (0, [False]) is replaced by the time of the new
    request. *)
Theorem next_request_from_date
    (cfg : environ) (w1 w2 : world) (st : state) :
  let asks (cursor : pyval) :=
    exists st1,
      outcome (iteration cfg w1 st) = Ok st1 /\
      requests (trace (iteration cfg w2 st1))
      = [(ENDPOINT, HEADERS cfg,
          [("from_date",
            if truthy cursor then cursor else PInt (w_time w2))])] in
  (forall (d : dict pyval) (homeworks : list pyval) (cd : pyval),
     w_get w1 = GetReturns 200 (JsonReturns (PDict d)) ->
     dict_get "homeworks" d = Some (PList homeworks) ->
     dict_get "current_date" d = Some cd ->
     isinstance_int cd = true ->
     (homeworks = [] \/
      exists homework rest message,
        homeworks = homework :: rest /\
        outcome (parse_status homework) = Ok message) ->
     asks cd) /\
  ((forall v, w_get w1 <> GetReturns 200 (JsonReturns v)) \/
   (exists payload check,
      w_get w1 = GetReturns 200 (JsonReturns payload) /\
      failing_check payload = Some check) \/
   (exists d homework rest cd e,
      w_get w1 = GetReturns 200 (JsonReturns (PDict d)) /\
      dict_get "homeworks" d = Some (PList (homework :: rest)) /\
      dict_get "current_date" d = Some cd /\
      isinstance_int cd = true /\
      outcome (parse_status homework) = Raise e) ->
   asks (current_timestamp st)).
Proof.
  intros asks.
  assert (Hnext : forall st1 cursor,
            outcome (iteration cfg w1 st) = Ok st1 ->
            current_timestamp st1 = cursor -> asks cursor).
  { intros st1 cursor Ho Hc. exists st1. split; [ exact Ho | ].
    destruct (iteration_effects cfg w2 st1) as (-> & _). rewrite Hc.
    now destruct (single_request_of_get_api_answer cfg w2 cursor) as (-> & _). }
  assert (Hfail : forall t e, try_suite cfg w1 st = (t, Raise e) ->
                              asks (current_timestamp st)).
  { intros t e Htry.
    destruct (iteration_after_failure cfg w1 st t e Htry) as (Ho & _).
    exact (Hnext _ _ Ho eq_refl). }
  split.
  - intros d homeworks cd Hw Hh Hcd Hint [-> | (homework & rest & message & -> & Hp)].
    + pose proof (try_suite_on_empty cfg w1 st d cd Hw Hh Hcd Hint) as Htry.
      apply (Hnext (mkState cd None)); [ | reflexivity ].
      now rewrite (iteration_success cfg w1 st _ cd Htry).
    + pose proof (try_suite_on_homework cfg w1 st d homework rest cd
                    Hw Hh Hcd Hint) as Htry.
      destruct (parse_status homework) as [tp r]. simpl in Hp. subst r.
      apply (Hnext (mkState cd None)); [ | reflexivity ].
      now rewrite (iteration_success cfg w1 st _ cd Htry).
  - intros [Hw | [(payload & check & Hw & Hc)
                 | (d & homework & rest & cd & e & Hw & Hh & Hcd & Hint & Hp)]].
    + destruct (try_suite_transport_error cfg w1 st Hw) as (t & e & Htry).
      exact (Hfail t e Htry).
    + destruct (try_suite_shape_error cfg w1 st payload check Hw Hc)
        as (t & Htry).
      exact (Hfail t _ Htry).
    + pose proof (try_suite_on_homework cfg w1 st d homework rest cd
                    Hw Hh Hcd Hint) as Htry.
      destruct (parse_status homework) as [tp r]. simpl in Hp. subst r.
      exact (Hfail _ e Htry).
Qed.

Lemma next_request_from_date_witness :
  let st := mkState (PInt 1000) None in
  let next := refusing 404 None in
  (exists st1,
     outcome (iteration sample_cfg (answering (api_answer [] 2000)) st) = Ok st1 /\
     requests (trace (iteration sample_cfg next st1))
     = [(ENDPOINT, HEADERS sample_cfg, [("from_date", PInt 2000)])]) /\
  (exists st1,
     outcome (iteration sample_cfg (answering (api_answer [] 0)) st) = Ok st1 /\
     requests (trace (iteration sample_cfg next st1))
     = [(ENDPOINT, HEADERS sample_cfg, [("from_date", PInt 1700000000)])]) /\
  (exists st1,
     outcome (iteration sample_cfg (refusing 500 None) st) = Ok st1 /\
     requests (trace (iteration sample_cfg next st1))
     = [(ENDPOINT, HEADERS sample_cfg, [("from_date", PInt 1000)])]).
Proof.
  intros st next. split; [ | split ].
  - exact (proj1 (next_request_from_date
                     sample_cfg (answering (api_answer [] 2000)) next st)
             [("homeworks", PList []); ("current_date", PInt 2000)]
             [] (PInt 2000) eq_refl eq_refl eq_refl eq_refl
             (or_introl eq_refl)).
  - exact (proj1 (next_request_from_date
                     sample_cfg (answering (api_answer [] 0)) next st)
             [("homeworks", PList []); ("current_date", PInt 0)]
             [] (PInt 0) eq_refl eq_refl eq_refl eq_refl
             (or_introl eq_refl)).
  - refine (proj2 (next_request_from_date
                     sample_cfg (refusing 500 None) next st)
              (or_introl _)).
    intros v. discriminate.
Defined.

(** X18.  Over a valid answer with an empty list of homeworks the iteration
    sends nothing, records 'Статус работы не изменился', moves the cursor
    to [current_date] and clears [last_error_message]. *)
Theorem nothing_new_iteration
    (cfg : environ) (w : world) (st : state) (d : dict pyval) (cd : pyval) :
  w_get w = GetReturns 200 (JsonReturns (PDict d)) ->
  dict_get "homeworks" d = Some (PList []) ->
  dict_get "current_date" d = Some cd ->
  isinstance_int cd = true ->
  outcome (iteration cfg w st) = Ok (mkState cd None) /\
  bot_calls (trace (iteration cfg w st)) = [] /\
  In (Log DEBUG "Статус работы не изменился") (trace (iteration cfg w st)).
Proof.
  intros Hw Hh Hcd Hint.
  assert (Htry : try_suite cfg w st
                 = ((trace (get_api_answer cfg w (current_timestamp st))
                     ++ [Log DEBUG "Проверяю, все ли ок с ответом API";
                         Log DEBUG "Данные о домашних работах получены";
                         Log DEBUG "Статус работы не изменился"])%list,
                    Ok cd)).
  { unfold try_suite. cbv [bind].
    assert (Hget : get_api_answer cfg w (current_timestamp st)
                   = (trace (get_api_answer cfg w (current_timestamp st)),
                      Ok (PDict d))).
    { unfold get_api_answer, requests_get, response_json. rewrite Hw.
      reflexivity. }
    rewrite Hget at 1.
    unfold check_response. cbv beta iota. rewrite Hh, Hcd, Hint.
    unfold py_get. rewrite Hcd. reflexivity. }
  rewrite (iteration_success cfg w st _ cd Htry). cbn [trace outcome fst snd].
  destruct (single_request_of_get_api_answer cfg w (current_timestamp st))
    as (_ & Hbot & _).
  split; [ reflexivity | ]. split.
  - now rewrite !bot_calls_app, Hbot.
  - rewrite ?in_app_iff. simpl. tauto.
Qed.

Lemma nothing_new_iteration_witness :
  let w := answering (api_answer [] 2000) in
  let st := mkState (PInt 1000) (Some "an earlier failure") in
  outcome (iteration sample_cfg w st) = Ok (mkState (PInt 2000) None) /\
  bot_calls (trace (iteration sample_cfg w st)) = [].
Proof.
  intros w st.
  destruct (nothing_new_iteration sample_cfg w st
              [("homeworks", PList []); ("current_date", PInt 2000)]
              (PInt 2000) eq_refl eq_refl eq_refl eq_refl) as (Ho & Hb & _).
  exact (conj Ho Hb).
Defined.
